(** * flux: the /generate endpoint of [main.py]

    A shallow embedding of the three request-path functions of [main.py]
    ([generate_image], [upload_to_r2], [generate_endpoint]) and of the
    startup hook [lifespan], followed by the properties of the error
    handling, of the object key derivation and of the data URL parsing.

    Python exceptions are an explicit error type, outbound calls are
    recorded in an event trace, and everything that lives outside
    [main.py] (process environment, clock, the generation API, the object
    store, library functions) is a field of a [World] record. *)

From Stdlib Require Import ZArith QArith List Ascii String Strings.Byte Lia.
From Stdlib Require Import Floats.SpecFloat.
From stdpp Require Import base option list strings gmap pretty.

Set Warnings "-register-all".

Local Open Scope string_scope.
Local Open Scope list_scope.
Local Open Scope Z_scope.

(* ===================================================================== *)
(** ** Python values *)
(* ===================================================================== *)

(** The values [json] decoding produces: [payload], the decoded upstream
    body and whatever [prompt] a caller sends.  A [dict] keeps its items
    in insertion order; floats are IEEE-754 values. *)
Inductive pyval : Type :=
| PyNone
| PyBool (b : bool)
| PyInt (n : Z)
| PyFloat (x : spec_float)
| PyStr (s : string)
| PyList (xs : list pyval)
| PyDict (items : list (string * pyval)).

(** Python truth value testing, as used by [if not prompt] and
    [if not image_data_url]. *)
Definition truthy (v : pyval) : bool :=
  match v with
  | PyNone => false
  | PyBool b => b
  | PyInt n => negb (n =? 0)
  | PyFloat (S754_zero _) => false
  | PyFloat _ => true
  | PyStr EmptyString => false
  | PyStr (String _ _) => true
  | PyList [] => false
  | PyList (_ :: _) => true
  | PyDict [] => false
  | PyDict (_ :: _) => true
  end.

(** [d.get(k)]: the value stored under [k], [None] when there is none. *)
Fixpoint dict_get (items : list (string * pyval)) (k : string) : pyval :=
  match items with
  | [] => PyNone
  | (k', v) :: rest => if String.eqb k' k then v else dict_get rest k
  end.

(** [s.split(sep)] for a one-character separator: the maximal pieces of
    [s] between occurrences of [sep]; never the empty list. *)
Fixpoint str_split (sep : ascii) (s : string) : list string :=
  match s with
  | EmptyString => [EmptyString]
  | String c s' =>
      if Ascii.eqb c sep then EmptyString :: str_split sep s'
      else match str_split sep s' with
           | [] => [String c EmptyString]
           | piece :: pieces => String c piece :: pieces
           end
  end.

(** [int(x)] for a finite float [x], here a rational: truncation towards
    zero. *)
Definition int_of_float (x : Q) : Z := Z.quot (Qnum x) (Z.pos (Qden x)).

(* ===================================================================== *)
(** ** Exceptions, results and the trace monad *)
(* ===================================================================== *)

(** The exception classes the handlers of [main.py] tell apart, and the
    ones its own expressions raise.  An [HTTPStatusError] is known by
    [e.response.status_code].  [LibraryError] is any other subclass of
    [Exception] coming out of httpx, boto3, binascii or the runtime
    (timeouts, connection errors, [binascii.Error], [TypeError], ...). *)
Inductive exn : Type :=
| HTTPException (status_code : Z) (detail : string)
| HTTPStatusError (response_status_code : Z)
| JSONDecodeError (msg : string)
| KeyError (key : string)
| AttributeError (msg : string)
| IndexError (msg : string)
| LibraryError (cls : string) (msg : string).

Inductive result (A : Type) : Type :=
| Return (a : A)
| Raise (e : exn).
Arguments Return {A} a.
Arguments Raise {A} e.

Record Response : Type := {
  status_code : Z;
  (** what [response.json()] does on this response *)
  json : result pyval;
}.

(** The arguments of [http_client.post].  A [files] entry [(None, v)] is
    a form field with no file name. *)
Record PostRequest : Type := {
  url : string;
  headers : list (string * string);
  files : list (string * (option string * pyval));
  timeout : Q;
}.

(** The keyword arguments of [s3_client.put_object]. *)
Record PutObjectArgs : Type := {
  Bucket : string;
  Key : string;
  Body : list byte;
  ContentType : string;
}.

(** What a request can observe of its surroundings. *)
Record World : Type := {
  (** [os.environ] *)
  environ : gmap string string;
  (** the float [time.time()] returns when the uploader reads the clock *)
  time_time : Q;
  (** [await http_client.post(...)]: a response, or an exception *)
  http_post : PostRequest -> result Response;
  (** [s3_client.put_object(...)] run through [asyncio.to_thread] *)
  s3_put_object : PutObjectArgs -> result unit;
  (** [base64.b64decode] *)
  b64decode : string -> result (list byte);
  (** [str(e)] on an exception *)
  py_str : exn -> string;
}.

(** Calls that leave a function of [main.py]: entering one of the two
    collaborators, and the two outbound calls. *)
Inductive event : Type :=
| CallGenerateImage (prompt : pyval)
| HttpPost (req : PostRequest)
| CallUploadToR2 (image_data : string)
| PutObject (args : PutObjectArgs).

(** A computation: the events it performed, in order, and how it ended. *)
Definition M (A : Type) : Type := (list event * result A)%type.

Definition ret {A} (a : A) : M A := ([], Return a).
Definition raise {A} (e : exn) : M A := ([], Raise e).
Definition emit (ev : event) : M unit := ([ev], Return tt).
Definition lift {A} (r : result A) : M A := ([], r).

Definition bind {A B} (m : M A) (k : A -> M B) : M B :=
  match m with
  | (tr, Return a) => let '(tr', r) := k a in (tr ++ tr', r)
  | (tr, Raise e) => (tr, Raise e)
  end.

(** [try: body / except ... as e: handler e].  The dispatch on the class
    of [e] is the handler's own [match]. *)
Definition try_except {A} (body : M A) (handler : exn -> M A) : M A :=
  match body with
  | (tr, Return a) => (tr, Return a)
  | (tr, Raise e) => let '(tr', r) := handler e in (tr ++ tr', r)
  end.

Definition trace {A} (m : M A) : list event := fst m.
Definition outcome {A} (m : M A) : result A := snd m.

Declare Scope py_scope.
Delimit Scope py_scope with py.
Notation "x <- m ;; k" := (bind m (fun x => k))
  (at level 100, m at next level, right associativity) : py_scope.
Notation "m ;;; k" := (bind m (fun _ => k))
  (at level 100, right associativity) : py_scope.
Local Open Scope py_scope.

(** [for x in xs: body x], left to right, stopping at the first raise. *)
Fixpoint for_each {A} (xs : list A) (body : A -> M unit) : M unit :=
  match xs with
  | [] => ret tt
  | x :: rest => body x ;;; for_each rest body
  end.

(* ===================================================================== *)
(** ** Library operations used by [main.py] *)
(* ===================================================================== *)

(** [name in os.environ] *)
Definition environ_contains (w : World) (name : string) : bool :=
  bool_decide (is_Some (environ w !! name)).

(** [os.environ[name]] *)
Definition environ_getitem (env : gmap string string) (name : string)
  : M string :=
  match env !! name with
  | Some v => ret v
  | None => raise (KeyError name)
  end.

(** [response.is_success] *)
Definition is_success (r : Response) : bool :=
  (200 <=? status_code r) && (status_code r <=? 299).

(** [response.raise_for_status()]: httpx raises [HTTPStatusError],
    carrying the response, for every status outside 200..299. *)
Definition raise_for_status (r : Response) : M unit :=
  if is_success r then ret tt
  else raise (HTTPStatusError (status_code r)).

(** [type(v).__name__] *)
Definition type_name (v : pyval) : string :=
  match v with
  | PyNone => "NoneType"
  | PyBool _ => "bool"
  | PyInt _ => "int"
  | PyFloat _ => "float"
  | PyStr _ => "str"
  | PyList _ => "list"
  | PyDict _ => "dict"
  end.

(** Looking up a method the value does not have. *)
Definition no_attribute (v : pyval) (attr : string) : exn :=
  AttributeError
    ("'" +:+ type_name v +:+ "' object has no attribute '" +:+ attr +:+ "'").

(** [v.get(k)]: only a [dict] has the method. *)
Definition py_get (v : pyval) (k : string) : M pyval :=
  match v with
  | PyDict items => ret (dict_get items k)
  | _ => raise (no_attribute v "get")
  end.

(** [v.startswith(p)]: only a [str] has the method. *)
Definition py_startswith (v : pyval) (p : string) : M bool :=
  match v with
  | PyStr s => ret (String.prefix p s)
  | _ => raise (no_attribute v "startswith")
  end.

(** [v.split(",")]: only a [str] has the method. *)
Definition py_split (v : pyval) (sep : ascii) : M (list string) :=
  match v with
  | PyStr s => ret (str_split sep s)
  | _ => raise (no_attribute v "split")
  end.

(** [xs[i]] on a list. *)
Definition py_index (xs : list string) (i : nat) : M string :=
  match xs !! i with
  | Some x => ret x
  | None => raise (IndexError "list index out of range")
  end.

(* ===================================================================== *)
(** ** [main.py] *)
(* ===================================================================== *)

(** The handles [lifespan] stores in the globals [s3_client] and
    [http_client]; the storage client remembers how it was configured. *)
Record Clients : Type := {
  endpoint_url : string;
  aws_access_key_id : string;
  aws_secret_access_key : string;
  signature_version : string;
}.

(** The two constructors [lifespan] calls, as the libraries behave in
    the process: [boto3.client('s3', ...)] on its keyword arguments and
    [httpx.AsyncClient()] each hand back a client or raise (botocore
    raises [ValueError] on an endpoint it cannot parse). *)
Record Constructors : Type := {
  boto3_client : Clients -> result unit;
  async_client : result unit;
}.

(** The startup half of [lifespan] (up to its [yield]): the three
    [os.environ[...]] reads are evaluated in keyword order, then the
    storage client is built from them, then the HTTP client. *)
Definition lifespan (lib : Constructors) (env : gmap string string)
  : M Clients :=
  endpoint <- environ_getitem env "R2_ENDPOINT_URL" ;;
  access_key <- environ_getitem env "R2_ACCESS_KEY_ID" ;;
  secret_key <- environ_getitem env "R2_SECRET_ACCESS_KEY" ;;
  let clients :=
    {| endpoint_url := endpoint;
       aws_access_key_id := access_key;
       aws_secret_access_key := secret_key;
       signature_version := "s3v4" |} in
  lift (boto3_client lib clients) ;;;
  lift (async_client lib) ;;;
  ret clients.

Definition data_url_prefix : string := "data:image/png;base64,".

(** The request [generate_image] sends: its [headers] and [files]
    dictionaries, the fixed URL and the 30 second timeout. *)
Definition generation_request (api_key : string) (prompt : pyval)
  : PostRequest :=
  let headers :=
    [("accept", "application/json");
     ("authorization", "Bearer " +:+ api_key)] in
  let files :=
    [("prompt", (None, prompt));
     ("model", (None, PyStr "flux_1_schnell"));
     ("size", (None, PyStr "16_9"));
     ("lora", (None, PyStr ""));
     ("style", (None, PyStr "no_style"))] in
  {| url := "https://api.freeflux.ai/v1/images/generate";
     headers := headers;
     files := files;
     timeout := 30%Q |}.

Definition generate_image (w : World) (prompt : pyval) : M string :=
  emit (CallGenerateImage prompt) ;;;
  try_except
    ((if negb (environ_contains w "FLUX_API_KEY")
      then raise (HTTPException 500
                    "FLUX_API_KEY environment variable not set")
      else ret tt) ;;;
     api_key <- environ_getitem (environ w) "FLUX_API_KEY" ;;
     let req := generation_request api_key prompt in
     emit (HttpPost req) ;;;
     response <- lift (http_post w req) ;;
     raise_for_status response ;;;
     response_json <- lift (json response) ;;
     image_data_url <- py_get response_json "result" ;;
     invalid <- (if negb (truthy image_data_url) then ret true
                 else (ok <- py_startswith image_data_url data_url_prefix ;;
                       ret (negb ok))) ;;
     (if invalid : bool
      then raise (HTTPException 500 "Invalid image data response")
      else ret tt) ;;;
     pieces <- py_split image_data_url "," ;;
     py_index pieces 1)
    (fun e =>
       match e with
       | HTTPStatusError status =>
           raise (HTTPException status
                    ("Image generation failed: " +:+ py_str w e))
       | JSONDecodeError _ =>
           raise (HTTPException 500 "Invalid API response format")
       | _ =>
           raise (HTTPException 500
                    ("Image generation error: " +:+ py_str w e))
       end).

Definition upload_to_r2 (w : World) (image_data : string) : M string :=
  emit (CallUploadToR2 image_data) ;;;
  try_except
    (let required_vars := ["R2_BUCKET_NAME"; "R2_PUBLIC_DOMAIN"] in
     for_each required_vars (fun var =>
       if negb (environ_contains w var)
       then raise (HTTPException 500
                     (var +:+ " environment variable not set"))
       else ret tt) ;;;
     image_bytes <- lift (b64decode w image_data) ;;
     let timestamp := int_of_float (time_time w) in
     let object_name :=
       "generated_image_" +:+ pretty timestamp +:+ ".png" in
     bucket <- environ_getitem (environ w) "R2_BUCKET_NAME" ;;
     let args :=
       {| Bucket := bucket;
          Key := object_name;
          Body := image_bytes;
          ContentType := "image/png" |} in
     emit (PutObject args) ;;;
     lift (s3_put_object w args) ;;;
     domain <- environ_getitem (environ w) "R2_PUBLIC_DOMAIN" ;;
     ret ("https://" +:+ domain +:+ "/" +:+ object_name))
    (fun e =>
       raise (HTTPException 500 ("R2 upload failed: " +:+ py_str w e))).

Definition generate_endpoint (w : World) (payload : list (string * pyval))
  : M pyval :=
  try_except
    (let prompt := dict_get payload "prompt" in
     (if negb (truthy prompt)
      then raise (HTTPException 400 "Prompt is required")
      else ret tt) ;;;
     base64_image <- generate_image w prompt ;;
     image_url <- upload_to_r2 w base64_image ;;
     ret (PyDict [("image_url", PyStr image_url)]))
    (fun e =>
       match e with
       | HTTPException _ _ => raise e
       | _ =>
           raise (HTTPException 500
                    ("Internal server error: " +:+ py_str w e))
       end).

(** What FastAPI sends for the outcome of a path operation: status 200
    with the returned body, or the status and [detail] of the
    [HTTPException]. *)
Record HttpReply : Type := {
  reply_status : Z;
  reply_body : pyval;
}.

Definition http_reply (r : result pyval) : HttpReply :=
  match r with
  | Return body => {| reply_status := 200; reply_body := body |}
  | Raise (HTTPException status detail) =>
      {| reply_status := status;
         reply_body := PyDict [("detail", PyStr detail)] |}
  | Raise _ =>
      {| reply_status := 500; reply_body := PyStr "Internal Server Error" |}
  end.

(** The reply of [POST /generate] to a JSON object [payload]. *)
Definition post_generate (w : World) (payload : list (string * pyval))
  : HttpReply :=
  http_reply (outcome (generate_endpoint w payload)).

(* ===================================================================== *)
(** ** Observations on traces and strings *)
(* ===================================================================== *)

Definition is_generate_call (ev : event) : bool :=
  match ev with CallGenerateImage _ => true | _ => false end.
Definition is_upload_call (ev : event) : bool :=
  match ev with CallUploadToR2 _ => true | _ => false end.
Definition is_http_post (ev : event) : bool :=
  match ev with HttpPost _ => true | _ => false end.
Definition is_put_object (ev : event) : bool :=
  match ev with PutObject _ => true | _ => false end.

(** Was [generate_image] entered, was [upload_to_r2] entered, was the
    store's [put_object] called, during the run that left trace [tr]? *)
Definition generate_image_invoked (tr : list event) : bool :=
  existsb is_generate_call tr.
Definition upload_to_r2_invoked (tr : list event) : bool :=
  existsb is_upload_call tr.
Definition put_object_invoked (tr : list event) : bool :=
  existsb is_put_object tr.

(** The object keys handed to the store, in order. *)
Fixpoint put_keys (tr : list event) : list string :=
  match tr with
  | [] => []
  | PutObject args :: rest => Key args :: put_keys rest
  | _ :: rest => put_keys rest
  end.

(** The object key the uploader derives from a clock reading. *)
Definition key_at (t : Q) : string :=
  "generated_image_" +:+ pretty (int_of_float t) +:+ ".png".

(** The whole text that follows the first comma of [s]. *)
Fixpoint after_first_comma (s : string) : string :=
  match s with
  | EmptyString => EmptyString
  | String c s' => if Ascii.eqb c "," then s' else after_first_comma s'
  end.

(** The text of [s] in front of its first comma, all of [s] when it has
    none. *)
Fixpoint up_to_comma (s : string) : string :=
  match s with
  | EmptyString => EmptyString
  | String c s' =>
      if Ascii.eqb c "," then EmptyString else String c (up_to_comma s')
  end.

Fixpoint has_comma (s : string) : bool :=
  match s with
  | EmptyString => false
  | String c s' => Ascii.eqb c "," || has_comma s'
  end.

(** ASCII white space: tab, line feed, vertical tab, form feed, carriage
    return and space. *)
Definition is_space (c : ascii) : bool :=
  let n := N_of_ascii c in
  ((9 <=? n) && (n <=? 13) || (n =? 32))%N.

Fixpoint all_space (s : string) : bool :=
  match s with
  | EmptyString => true
  | String c s' => is_space c && all_space s'
  end.

(** A string of one or more characters, all of them white space. *)
Definition whitespace_only (s : string) : bool :=
  match s with
  | EmptyString => false
  | String _ _ => all_space s
  end.

(** Does [v] hold a string that starts with the data URL prefix? *)
Definition starts_with_prefix (v : pyval) : bool :=
  match v with
  | PyStr s => String.prefix data_url_prefix s
  | _ => false
  end.

(** The [result] field of a decoded body, [None] when the body has no
    such field. *)
Definition result_field (body : pyval) : pyval :=
  match body with
  | PyDict items => dict_get items "result"
  | _ => PyNone
  end.

(** The variables the deployment is documented to need. *)
Definition required_environment : list string :=
  ["R2_ENDPOINT_URL"; "R2_ACCESS_KEY_ID"; "R2_SECRET_ACCESS_KEY";
   "R2_BUCKET_NAME"; "R2_PUBLIC_DOMAIN"; "FLUX_API_KEY"].

(** Those [lifespan] reads while the process starts. *)
Definition startup_variables : list string :=
  ["R2_ENDPOINT_URL"; "R2_ACCESS_KEY_ID"; "R2_SECRET_ACCESS_KEY"].

(* ===================================================================== *)
(** ** A concrete world *)
(* ===================================================================== *)

(** [base64.b64decode(s)] with its default [validate=False], as CPython's
    [binascii.a2b_base64] computes it: characters outside the alphabet
    are skipped, the padding is checked on what remains. *)
Module Base64.

Definition sextet (c : ascii) : option N :=
  let n := N_of_ascii c in
  (if (65 <=? n) && (n <=? 90) then Some (n - 65)
   else if (97 <=? n) && (n <=? 122) then Some (n - 71)
   else if (48 <=? n) && (n <=? 57) then Some (n + 4)
   else if n =? 43 then Some 62
   else if n =? 47 then Some 63
   else None)%N.

Definition byte_of_N (n : N) : byte :=
  match Byte.of_N (n mod 256) with
  | Some b => b
  | None => x00
  end.

(** The decoding loop: [quad_pos] is the position in the current group
    of four, [leftchar] the bits not yet written, [pads] the run of
    padding seen, [out] the bytes written so far, last first. *)
Fixpoint a2b (s : string) (quad_pos : nat) (leftchar : N) (pads : nat)
    (out : list byte) : result (list byte) :=
  match s with
  | EmptyString =>
      match quad_pos with
      | O => Return (rev out)
      | S O => Raise (LibraryError "binascii.Error"
                 "Invalid base64-encoded string")
      | _ => Raise (LibraryError "binascii.Error" "Incorrect padding")
      end
  | String c s' =>
      if Ascii.eqb c "=" then
        if (2 <=? quad_pos)%nat then
          if (4 <=? quad_pos + S pads)%nat then Return (rev out)
          else a2b s' quad_pos leftchar (S pads) out
        else a2b s' quad_pos leftchar pads out
      else
        match sextet c with
        | None => a2b s' quad_pos leftchar pads out
        | Some v =>
            match quad_pos with
            | 0%nat => a2b s' 1%nat v 0%nat out
            | 1%nat =>
                a2b s' 2%nat (N.land v 15) 0%nat
                  (byte_of_N (N.lor (N.shiftl leftchar 2) (N.shiftr v 4))
                   :: out)
            | 2%nat =>
                a2b s' 3%nat (N.land v 3) 0%nat
                  (byte_of_N (N.lor (N.shiftl leftchar 4) (N.shiftr v 2))
                   :: out)
            | _ =>
                a2b s' 0%nat 0%N 0%nat
                  (byte_of_N (N.lor (N.shiftl leftchar 6) v) :: out)
            end
        end
  end.

Fixpoint all_ascii (s : string) : bool :=
  match s with
  | EmptyString => true
  | String c s' => (N_of_ascii c <? 128)%N && all_ascii s'
  end.

Definition b64decode (s : string) : result (list byte) :=
  if all_ascii s then a2b s 0%nat 0%N 0%nat []
  else Raise (LibraryError "ValueError"
         "string argument should contain only ASCII characters").

(** Text that is base64 as RFC 4648 writes it: groups of four
    characters of the alphabet, the last group ending in at most two
    "=". *)
Definition is_alphabet (c : ascii) : bool :=
  match sextet c with Some _ => true | None => false end.

Definition is_pad (c : ascii) : bool := Ascii.eqb c "=".

Fixpoint valid (s : string) : bool :=
  match s with
  | EmptyString => true
  | String a (String b (String c (String d rest))) =>
      is_alphabet a && is_alphabet b &&
      match rest with
      | EmptyString =>
          (is_alphabet c && (is_alphabet d || is_pad d))
          || (is_pad c && is_pad d)
      | String _ _ => is_alphabet c && is_alphabet d && valid rest
      end
  | _ => false
  end.

End Base64.

Module Examples.

Definition configured : gmap string string :=
  list_to_map
    [("R2_ENDPOINT_URL", "https://account.r2.example");
     ("R2_ACCESS_KEY_ID", "key-id");
     ("R2_SECRET_ACCESS_KEY", "secret");
     ("R2_BUCKET_NAME", "images");
     ("R2_PUBLIC_DOMAIN", "cdn.example.org");
     ("FLUX_API_KEY", "sk-test")].

(** Constructors that stand in for the libraries: the storage client
    wants an endpoint with a scheme, the HTTP client is always built. *)
Definition libraries : Constructors :=
  {| boto3_client := fun clients =>
       if String.prefix "http" (endpoint_url clients) then Return tt
       else Raise (LibraryError "ValueError"
                     ("Invalid endpoint: " +:+ endpoint_url clients));
     async_client := Return tt |}.

(** [str(e)]: Starlette prints an [HTTPException] as
    ["<status>: <detail>"], a [KeyError] shows its key quoted, an
    [HTTPStatusError] names the status, the others show their message. *)
Definition str (e : exn) : string :=
  match e with
  | HTTPException status detail => pretty status +:+ ": " +:+ detail
  | HTTPStatusError status => "status " +:+ pretty status
  | JSONDecodeError msg => msg
  | KeyError key => "'" +:+ key +:+ "'"
  | AttributeError msg => msg
  | IndexError msg => msg
  | LibraryError _ msg => msg
  end.

(** A world with the given environment, upstream answer and store
    answer, read at 2023-11-14 22:13:20.25 UTC. *)
Definition world (env : gmap string string) (answer : result Response)
    (stored : result unit) : World :=
  {| environ := env;
     time_time := 6800000001 # 4;
     http_post := fun _ => answer;
     s3_put_object := fun _ => stored;
     b64decode := Base64.b64decode;
     py_str := str |}.

(** An upstream answer with status [code] and decoded body [body]. *)
Definition answer (code : Z) (body : pyval) : result Response :=
  Return {| status_code := code; json := Return body |}.

(** A 200 answer carrying [data_url] in its [result] field. *)
Definition image_answer (data_url : string) : result Response :=
  answer 200 (PyDict [("result", PyStr data_url)]).

Definition png_answer : result Response :=
  image_answer "data:image/png;base64,aGk=".

Definition happy : World := world configured png_answer (Return tt).

Definition timed_out : result Response :=
  Raise (LibraryError "httpx.ReadTimeout" "The read operation timed out").

Definition payload_of (prompt : pyval) : list (string * pyval) :=
  [("prompt", prompt)].

(** Clients of the endpoint: one asks for a cat, one sends an empty
    prompt, one a number, one only blanks. *)
Definition cat : list (string * pyval) := payload_of (PyStr "a cat").
Definition empty_prompt : list (string * pyval) := payload_of (PyStr "").
Definition number_prompt : list (string * pyval) := payload_of (PyInt 7).
Definition blank_prompt : list (string * pyval) := payload_of (PyStr "   ").

(** An upstream answer whose payload holds a second comma. *)
Definition two_commas : string := "data:image/png;base64,ab,cd".

Definition two_commas_world : World :=
  world configured (image_answer two_commas) (Return tt).

(** The environment of a deployment that forgot the storage endpoint,
    and of one that forgot the API key. *)
Definition no_endpoint : gmap string string :=
  delete "R2_ENDPOINT_URL" configured.

Definition no_api_key : World :=
  world (delete "FLUX_API_KEY" configured) png_answer (Return tt).

(** The API throttles the request. *)
Definition throttled_response : Response :=
  {| status_code := 429;
     json := Return (PyDict [("error", PyStr "slow down")]) |}.

Definition throttled : World :=
  world configured (Return throttled_response) (Return tt).

(** The API answers 200 with a link in place of a data URL. *)
Definition link_body : pyval :=
  PyDict [("result", PyStr "https://img.example/1.png")].

Definition link_response : Response :=
  {| status_code := 200; json := Return link_body |}.

Definition linked : World :=
  world configured (Return link_response) (Return tt).

(** The store refuses the object. *)
Definition access_denied : exn :=
  LibraryError "botocore.exceptions.ClientError" "AccessDenied".

Definition store_down : World :=
  world configured png_answer (Raise access_denied).

(** The API hands back text that is not padded base64. *)
Definition truncated : World :=
  world configured (image_answer "data:image/png;base64,aGk") (Return tt).

End Examples.


(* ===================================================================== *)
(** ** Every way a run can go *)
(* ===================================================================== *)

(** What the [except] clauses of [generate_image] raise for a caught
    exception [e]. *)
Definition generation_failure (w : World) (e : exn) : exn :=
  match e with
  | HTTPStatusError status =>
      HTTPException status ("Image generation failed: " +:+ py_str w e)
  | JSONDecodeError _ => HTTPException 500 "Invalid API response format"
  | _ => HTTPException 500 ("Image generation error: " +:+ py_str w e)
  end.

(** What the [except] clause of [upload_to_r2] raises for a caught [e]. *)
Definition upload_failure (w : World) (e : exn) : exn :=
  HTTPException 500 ("R2 upload failed: " +:+ py_str w e).

(** The keyword arguments [upload_to_r2] builds for the store. *)
Definition store_args (w : World) (bucket : string) (image_bytes : list byte)
  : PutObjectArgs :=
  {| Bucket := bucket;
     Key := key_at (time_time w);
     Body := image_bytes;
     ContentType := "image/png" |}.

(** The runs of [generate_image]: one constructor per path through its
    body, with the trace and the outcome of that path. *)
Inductive generation_run (w : World) (prompt : pyval) : M string -> Prop :=
| run_no_key :
    environ w !! "FLUX_API_KEY" = None ->
    generation_run w prompt
      ([CallGenerateImage prompt],
       Raise (generation_failure w
                (HTTPException 500
                   "FLUX_API_KEY environment variable not set")))
| run_post_raises api_key e :
    environ w !! "FLUX_API_KEY" = Some api_key ->
    http_post w (generation_request api_key prompt) = Raise e ->
    generation_run w prompt
      ([CallGenerateImage prompt;
        HttpPost (generation_request api_key prompt)],
       Raise (generation_failure w e))
| run_status api_key response :
    environ w !! "FLUX_API_KEY" = Some api_key ->
    http_post w (generation_request api_key prompt) = Return response ->
    is_success response = false ->
    generation_run w prompt
      ([CallGenerateImage prompt;
        HttpPost (generation_request api_key prompt)],
       Raise (generation_failure w
                (HTTPStatusError (status_code response))))
| run_json_raises api_key response e :
    environ w !! "FLUX_API_KEY" = Some api_key ->
    http_post w (generation_request api_key prompt) = Return response ->
    is_success response = true ->
    json response = Raise e ->
    generation_run w prompt
      ([CallGenerateImage prompt;
        HttpPost (generation_request api_key prompt)],
       Raise (generation_failure w e))
| run_no_get api_key response body :
    environ w !! "FLUX_API_KEY" = Some api_key ->
    http_post w (generation_request api_key prompt) = Return response ->
    is_success response = true ->
    json response = Return body ->
    (forall items, body <> PyDict items) ->
    generation_run w prompt
      ([CallGenerateImage prompt;
        HttpPost (generation_request api_key prompt)],
       Raise (generation_failure w (no_attribute body "get")))
| run_invalid_data api_key response items :
    environ w !! "FLUX_API_KEY" = Some api_key ->
    http_post w (generation_request api_key prompt) = Return response ->
    is_success response = true ->
    json response = Return (PyDict items) ->
    truthy (dict_get items "result") = false
    \/ (exists s, dict_get items "result" = PyStr s
                  /\ String.prefix data_url_prefix s = false) ->
    generation_run w prompt
      ([CallGenerateImage prompt;
        HttpPost (generation_request api_key prompt)],
       Raise (generation_failure w
                (HTTPException 500 "Invalid image data response")))
| run_no_startswith api_key response items :
    environ w !! "FLUX_API_KEY" = Some api_key ->
    http_post w (generation_request api_key prompt) = Return response ->
    is_success response = true ->
    json response = Return (PyDict items) ->
    truthy (dict_get items "result") = true ->
    (forall s, dict_get items "result" <> PyStr s) ->
    generation_run w prompt
      ([CallGenerateImage prompt;
        HttpPost (generation_request api_key prompt)],
       Raise (generation_failure w
                (no_attribute (dict_get items "result") "startswith")))
| run_data_url api_key response items data_url :
    environ w !! "FLUX_API_KEY" = Some api_key ->
    http_post w (generation_request api_key prompt) = Return response ->
    is_success response = true ->
    json response = Return (PyDict items) ->
    dict_get items "result" = PyStr data_url ->
    String.prefix data_url_prefix data_url = true ->
    generation_run w prompt
      ([CallGenerateImage prompt;
        HttpPost (generation_request api_key prompt)],
       Return (up_to_comma (after_first_comma data_url))).

(** The runs of [upload_to_r2], in the same way. *)
Inductive upload_run (w : World) (image_data : string) : M string -> Prop :=
| run_no_bucket :
    environ w !! "R2_BUCKET_NAME" = None ->
    upload_run w image_data
      ([CallUploadToR2 image_data],
       Raise (upload_failure w
                (HTTPException 500
                   "R2_BUCKET_NAME environment variable not set")))
| run_no_domain bucket :
    environ w !! "R2_BUCKET_NAME" = Some bucket ->
    environ w !! "R2_PUBLIC_DOMAIN" = None ->
    upload_run w image_data
      ([CallUploadToR2 image_data],
       Raise (upload_failure w
                (HTTPException 500
                   "R2_PUBLIC_DOMAIN environment variable not set")))
| run_decode_raises bucket domain e :
    environ w !! "R2_BUCKET_NAME" = Some bucket ->
    environ w !! "R2_PUBLIC_DOMAIN" = Some domain ->
    b64decode w image_data = Raise e ->
    upload_run w image_data
      ([CallUploadToR2 image_data], Raise (upload_failure w e))
| run_put_raises bucket domain image_bytes e :
    environ w !! "R2_BUCKET_NAME" = Some bucket ->
    environ w !! "R2_PUBLIC_DOMAIN" = Some domain ->
    b64decode w image_data = Return image_bytes ->
    s3_put_object w (store_args w bucket image_bytes) = Raise e ->
    upload_run w image_data
      ([CallUploadToR2 image_data;
        PutObject (store_args w bucket image_bytes)],
       Raise (upload_failure w e))
| run_stored bucket domain image_bytes :
    environ w !! "R2_BUCKET_NAME" = Some bucket ->
    environ w !! "R2_PUBLIC_DOMAIN" = Some domain ->
    b64decode w image_data = Return image_bytes ->
    s3_put_object w (store_args w bucket image_bytes) = Return tt ->
    upload_run w image_data
      ([CallUploadToR2 image_data;
        PutObject (store_args w bucket image_bytes)],
       Return ("https://" +:+ domain +:+ "/" +:+ key_at (time_time w))).

(** The runs of [generate_endpoint], built from those of the two
    collaborators. *)
Inductive endpoint_run (w : World) (payload : list (string * pyval))
  : M pyval -> Prop :=
| run_rejected :
    truthy (dict_get payload "prompt") = false ->
    endpoint_run w payload
      ([], Raise (HTTPException 400 "Prompt is required"))
| run_generation_failed tr e :
    truthy (dict_get payload "prompt") = true ->
    generation_run w (dict_get payload "prompt") (tr, Raise e) ->
    endpoint_run w payload (tr, Raise e)
| run_upload_failed tr1 image_data tr2 e :
    truthy (dict_get payload "prompt") = true ->
    generation_run w (dict_get payload "prompt") (tr1, Return image_data) ->
    upload_run w image_data (tr2, Raise e) ->
    endpoint_run w payload (tr1 ++ tr2, Raise e)
| run_success tr1 image_data tr2 image_url :
    truthy (dict_get payload "prompt") = true ->
    generation_run w (dict_get payload "prompt") (tr1, Return image_data) ->
    upload_run w image_data (tr2, Return image_url) ->
    endpoint_run w payload
      (tr1 ++ tr2, Return (PyDict [("image_url", PyStr image_url)])).

(** More worlds: an API that answers with text that is not JSON, with a
    list, and with a number where the data URL should be. *)
Module Scenarios.

Definition not_json_response : Response :=
  {| status_code := 200;
     json := Raise (JSONDecodeError "Expecting value: line 1 column 1") |}.

Definition not_json : World :=
  Examples.world Examples.configured (Return not_json_response) (Return tt).

Definition list_response : Response :=
  {| status_code := 200; json := Return (PyList [PyStr "x"]) |}.

Definition list_body : World :=
  Examples.world Examples.configured (Return list_response) (Return tt).

Definition number_response : Response :=
  {| status_code := 200; json := Return (PyDict [("result", PyInt 5)]) |}.

Definition number_result : World :=
  Examples.world Examples.configured (Return number_response) (Return tt).

Definition unreachable : World :=
  Examples.world Examples.configured Examples.timed_out (Return tt).

(** A prompt of one no-break space (U+00A0, two bytes in UTF-8). *)
Definition nbsp : string :=
  String (ascii_of_nat 194) (String (ascii_of_nat 160) EmptyString).

Definition nbsp_prompt : list (string * pyval) :=
  Examples.payload_of (PyStr nbsp).

(** A deployment whose storage endpoint lacks its scheme. *)
Definition bare_endpoint : gmap string string :=
  <["R2_ENDPOINT_URL" := "account.r2.example"]> Examples.configured.

(** A deployment with the storage names missing. *)
Definition no_storage_names : World :=
  Examples.world
    (delete "R2_PUBLIC_DOMAIN" (delete "R2_BUCKET_NAME" Examples.configured))
    Examples.png_answer (Return tt).

End Scenarios.

(* ===================================================================== *)
(** ** Basic facts *)
(* ===================================================================== *)

Lemma environ_contains_Some (w : World) (name v : string) :
  environ w !! name = Some v -> environ_contains w name = true.
Proof.
  intros H. unfold environ_contains. apply bool_decide_eq_true_2. eauto.
Qed.

Lemma environ_contains_None (w : World) (name : string) :
  environ w !! name = None -> environ_contains w name = false.
Proof.
  intros H. unfold environ_contains. apply bool_decide_eq_false_2.
  rewrite H. intros [v Hv]. discriminate.
Qed.

Lemma dict_get_absent (items : list (string * pyval)) (k : string) :
  (forall v, ~ In (k, v) items) -> dict_get items k = PyNone.
Proof.
  induction items as [|[k' v'] rest IH]; intros Habs; simpl; [reflexivity|].
  destruct (String.eqb k' k) eqn:E.
  - apply String.eqb_eq in E. subst k'. exfalso. apply (Habs v'). now left.
  - apply IH. intros v Hin. apply (Habs v). now right.
Qed.

(** The library operations on small inputs. *)
Example str_split_pieces :
  str_split "," "a,b,,c" = ["a"; "b"; ""; "c"]
  /\ str_split "," "" = [""]
  /\ str_split "," "abc" = ["abc"].
Proof. repeat split. Qed.

Example truthy_values :
  truthy (PyFloat (S754_zero true)) = false
  /\ truthy (PyFloat S754_nan) = true
  /\ truthy (PyInt 0) = false
  /\ truthy (PyStr " ") = true
  /\ truthy (PyList []) = false
  /\ truthy (PyDict [("k", PyNone)]) = true.
Proof. repeat split. Qed.

Example int_of_float_truncates :
  int_of_float (7 # 2) = 3 /\ int_of_float (-7 # 2) = -3.
Proof. split; reflexivity. Qed.

Example raise_for_status_redirect :
  raise_for_status {| status_code := 304; json := Return PyNone |}
  = ([], Raise (HTTPStatusError 304)).
Proof. reflexivity. Qed.

Example b64decode_samples :
  Base64.b64decode "aGVsbG8=" = Return [x68; x65; x6c; x6c; x6f]
  /\ Base64.b64decode "a!Gk=" = Return [x68; x69]
  /\ Base64.b64decode "aGk"
     = Raise (LibraryError "binascii.Error" "Incorrect padding")
  /\ Base64.b64decode "a"
     = Raise (LibraryError "binascii.Error" "Invalid base64-encoded string").
Proof. repeat split. Qed.

Example valid_base64_samples :
  Base64.valid "aGVsbG8=" = true
  /\ Base64.valid "aGk=" = true
  /\ Base64.valid "aGk" = false
  /\ Base64.valid "a!Gk=" = false
  /\ Base64.valid "!!!!" = false.
Proof. repeat split. Qed.

(** The happy path, end to end. *)
Example happy_path :
  generate_endpoint Examples.happy Examples.cat
  = ([CallGenerateImage (PyStr "a cat");
      HttpPost (generation_request "sk-test" (PyStr "a cat"));
      CallUploadToR2 "aGk=";
      PutObject {| Bucket := "images";
                   Key := "generated_image_1700000000.png";
                   Body := [x68; x69];
                   ContentType := "image/png" |}],
     Return (PyDict
       [("image_url",
         PyStr "https://cdn.example.org/generated_image_1700000000.png")])).
Proof. vm_compute. reflexivity. Qed.

(** A read timeout of the generation API: a 500, nothing uploaded. *)
Example timeout_run :
  generate_endpoint
    (Examples.world Examples.configured Examples.timed_out (Return tt))
    Examples.cat
  = ([CallGenerateImage (PyStr "a cat");
      HttpPost (generation_request "sk-test" (PyStr "a cat"))],
     Raise (HTTPException 500
       "Image generation error: The read operation timed out")).
Proof. vm_compute. reflexivity. Qed.

(** Unpadded base64 from the API: the uploader is entered and fails
    before the store is called. *)
Example truncated_run :
  generate_endpoint Examples.truncated Examples.cat
  = ([CallGenerateImage (PyStr "a cat");
      HttpPost (generation_request "sk-test" (PyStr "a cat"));
      CallUploadToR2 "aGk"],
     Raise (HTTPException 500 "R2 upload failed: Incorrect padding")).
Proof. vm_compute. reflexivity. Qed.

(** The configured environment starts. *)
Example startup_run :
  lifespan Examples.libraries Examples.configured
  = ([], Return {| endpoint_url := "https://account.r2.example";
                   aws_access_key_id := "key-id";
                   aws_secret_access_key := "secret";
                   signature_version := "s3v4" |}).
Proof. vm_compute. reflexivity. Qed.

(** *** [generate_image], case by case *)

Section GenerateImage.
Local Arguments String.prefix : simpl never.
Local Arguments str_split : simpl never.

Variable w : World.
Variable prompt : pyval.

Lemma generate_image_no_key :
  environ w !! "FLUX_API_KEY" = None ->
  generate_image w prompt
  = ([CallGenerateImage prompt],
     Raise (HTTPException 500
       ("Image generation error: " +:+
        py_str w (HTTPException 500
                    "FLUX_API_KEY environment variable not set")))).
Proof.
  intros Hkey. unfold generate_image.
  rewrite (environ_contains_None _ _ Hkey). reflexivity.
Qed.

Variable api_key : string.
Hypothesis Hkey : environ w !! "FLUX_API_KEY" = Some api_key.

Let req := generation_request api_key prompt.

(** Once the key is there, the function is its entry, the outbound
    call, and the rest applied to what the call gave. *)
Lemma generate_image_post_raises (e : exn) :
  http_post w req = Raise e ->
  generate_image w prompt
  = ([CallGenerateImage prompt; HttpPost req],
     Raise (match e with
            | HTTPStatusError status =>
                HTTPException status
                  ("Image generation failed: " +:+ py_str w e)
            | JSONDecodeError _ =>
                HTTPException 500 "Invalid API response format"
            | _ =>
                HTTPException 500
                  ("Image generation error: " +:+ py_str w e)
            end)).
Proof.
  intros Hpost. unfold generate_image, environ_getitem.
  rewrite (environ_contains_Some _ _ _ Hkey), Hkey. simpl.
  fold req. rewrite Hpost. simpl. destruct e; reflexivity.
Qed.

Variable response : Response.
Hypothesis Hpost : http_post w req = Return response.

Lemma generate_image_status_error :
  is_success response = false ->
  generate_image w prompt
  = ([CallGenerateImage prompt; HttpPost req],
     Raise (HTTPException (status_code response)
       ("Image generation failed: " +:+
        py_str w (HTTPStatusError (status_code response))))).
Proof.
  intros Hst. unfold generate_image, environ_getitem.
  rewrite (environ_contains_Some _ _ _ Hkey), Hkey. simpl.
  fold req. rewrite Hpost. simpl.
  unfold raise_for_status. rewrite Hst. reflexivity.
Qed.

Hypothesis Hok : is_success response = true.

Lemma generate_image_json_raises (e : exn) :
  json response = Raise e ->
  generate_image w prompt
  = ([CallGenerateImage prompt; HttpPost req],
     Raise (match e with
            | HTTPStatusError status =>
                HTTPException status
                  ("Image generation failed: " +:+ py_str w e)
            | JSONDecodeError _ =>
                HTTPException 500 "Invalid API response format"
            | _ =>
                HTTPException 500
                  ("Image generation error: " +:+ py_str w e)
            end)).
Proof.
  intros Hjson. unfold generate_image, environ_getitem.
  rewrite (environ_contains_Some _ _ _ Hkey), Hkey. simpl.
  fold req. rewrite Hpost. simpl.
  unfold raise_for_status. rewrite Hok. simpl. rewrite Hjson. simpl.
  destruct e; reflexivity.
Qed.

Variable body : pyval.
Hypothesis Hjson : json response = Return body.

(** A body without a usable [result]: always a 500 from the catch-all
    handler, whose detail starts with its prefix. *)
Lemma generate_image_bad_result :
  truthy (result_field body) = false
  \/ starts_with_prefix (result_field body) = false ->
  exists msg : string,
    generate_image w prompt
    = ([CallGenerateImage prompt; HttpPost req],
       Raise (HTTPException 500 ("Image generation error: " +:+ msg))).
Proof.
  intros Hbad. unfold generate_image, environ_getitem.
  rewrite (environ_contains_Some _ _ _ Hkey), Hkey. simpl.
  fold req. rewrite Hpost. simpl.
  unfold raise_for_status. rewrite Hok. simpl. rewrite Hjson. simpl.
  destruct body as [| | | | |xs|items]; simpl; try (eexists; reflexivity).
  simpl in Hbad.
  destruct (truthy (dict_get items "result")) eqn:Ht; simpl.
  - destruct Hbad as [Hbad|Hbad]; [discriminate|].
    destruct (dict_get items "result") as [| | | |s| |]; simpl;
      try (eexists; reflexivity).
    simpl in Hbad. rewrite Hbad. simpl. eexists; reflexivity.
  - eexists; reflexivity.
Qed.

(** A body whose [result] is a string with the prefix: the second piece
    of the split is returned. *)
Lemma generate_image_data_url (data_url : string) :
  result_field body = PyStr data_url ->
  String.prefix data_url_prefix data_url = true ->
  generate_image w prompt
  = ([CallGenerateImage prompt; HttpPost req],
     match str_split "," data_url !! 1%nat with
     | Some piece => Return piece
     | None =>
         Raise (HTTPException 500
           ("Image generation error: " +:+
            py_str w (IndexError "list index out of range")))
     end).
Proof.
  intros Hres Hpre. unfold generate_image, environ_getitem.
  rewrite (environ_contains_Some _ _ _ Hkey), Hkey. simpl.
  fold req. rewrite Hpost. simpl.
  unfold raise_for_status. rewrite Hok. simpl. rewrite Hjson. simpl.
  destruct body as [| | | | |xs|items]; simpl in Hres; try discriminate.
  simpl. rewrite Hres. simpl.
  assert (Ht : exists c rest, data_url = String c rest).
  { destruct data_url; [discriminate|eauto]. }
  destruct Ht as (c & rest & ->). simpl.
  rewrite Hpre. simpl.
  unfold py_index.
  destruct (_ !! 1%nat); reflexivity.
Qed.

End GenerateImage.

(** Whatever the world does, [generate_image] leaves one of two traces,
    never touches the uploader, and raises nothing but [HTTPException]. *)
Lemma generate_image_shape (w : World) (prompt : pyval) :
  exists (tr : list event) (r : result string),
    generate_image w prompt = (CallGenerateImage prompt :: tr, r)
    /\ (tr = [] \/ exists req, tr = [HttpPost req])
    /\ (forall e, r = Raise e -> exists status detail,
          e = HTTPException status detail).
Proof.
  destruct (environ w !! "FLUX_API_KEY") as [api_key|] eqn:Hkey.
  2:{ rewrite (generate_image_no_key _ _ Hkey).
      do 2 eexists. split; [reflexivity|]. split; [now left|].
      intros e [= <-]. eauto. }
  set (req := generation_request api_key prompt).
  assert (Hhandled : forall e : exn, exists status detail,
    match e with
    | HTTPStatusError status =>
        HTTPException status ("Image generation failed: " +:+ py_str w e)
    | JSONDecodeError _ => HTTPException 500 "Invalid API response format"
    | _ => HTTPException 500 ("Image generation error: " +:+ py_str w e)
    end = HTTPException status detail).
  { intros e. destruct e; eauto. }
  destruct (http_post w req) as [response|e] eqn:Hpost.
  2:{ rewrite (generate_image_post_raises _ _ _ Hkey e Hpost).
      do 2 eexists. split; [reflexivity|]. split; [right; eauto|].
      intros e' [= <-]. apply Hhandled. }
  destruct (is_success response) eqn:Hok.
  2:{ rewrite (generate_image_status_error _ _ _ Hkey _ Hpost Hok).
      do 2 eexists. split; [reflexivity|]. split; [right; eauto|].
      intros e' [= <-]. eauto. }
  destruct (json response) as [body|e] eqn:Hjson.
  2:{ rewrite (generate_image_json_raises _ _ _ Hkey _ Hpost Hok e Hjson).
      do 2 eexists. split; [reflexivity|]. split; [right; eauto|].
      intros e' [= <-]. apply Hhandled. }
  destruct (truthy (result_field body)) eqn:Ht.
  2:{ destruct (generate_image_bad_result _ _ _ Hkey _ Hpost Hok _ Hjson
                  (or_introl Ht)) as [msg ->].
      do 2 eexists. split; [reflexivity|]. split; [right; eauto|].
      intros e' [= <-]. eauto. }
  destruct (starts_with_prefix (result_field body)) eqn:Hpre.
  2:{ destruct (generate_image_bad_result _ _ _ Hkey _ Hpost Hok _ Hjson
                  (or_intror Hpre)) as [msg ->].
      do 2 eexists. split; [reflexivity|]. split; [right; eauto|].
      intros e' [= <-]. eauto. }
  destruct (result_field body) as [| | | |data_url| |] eqn:Hres;
    try discriminate.
  rewrite (generate_image_data_url _ _ _ Hkey _ Hpost Hok _ Hjson
             data_url Hres Hpre).
  do 2 eexists. split; [reflexivity|]. split; [right; eauto|].
  intros e'. destruct (_ !! 1%nat); intros [= <-]. eauto.
Qed.

(** With the key configured the outbound call is always made, with the
    request built from the key and the prompt. *)
Lemma generate_image_posts (w : World) (prompt : pyval) (api_key : string) :
  environ w !! "FLUX_API_KEY" = Some api_key ->
  forall tr r,
    generate_image w prompt = (CallGenerateImage prompt :: tr, r) ->
    tr = [HttpPost (generation_request api_key prompt)].
Proof.
  intros Hkey tr r E.
  destruct (http_post w (generation_request api_key prompt))
    as [response|e] eqn:Hp.
  2:{ rewrite (generate_image_post_raises _ _ _ Hkey e Hp) in E.
      congruence. }
  destruct (is_success response) eqn:Hok.
  2:{ rewrite (generate_image_status_error _ _ _ Hkey _ Hp Hok) in E.
      congruence. }
  destruct (json response) as [body|e] eqn:Hj.
  2:{ rewrite (generate_image_json_raises _ _ _ Hkey _ Hp Hok e Hj) in E.
      congruence. }
  destruct (truthy (result_field body)) eqn:Hb.
  2:{ destruct (generate_image_bad_result _ _ _ Hkey _ Hp Hok _ Hj
                  (or_introl Hb)) as [msg E'].
      congruence. }
  destruct (starts_with_prefix (result_field body)) eqn:Hs.
  2:{ destruct (generate_image_bad_result _ _ _ Hkey _ Hp Hok _ Hj
                  (or_intror Hs)) as [msg E'].
      congruence. }
  destruct (result_field body) as [| | | |u| |] eqn:Hres; try discriminate.
  rewrite (generate_image_data_url _ _ _ Hkey _ Hp Hok _ Hj u Hres Hs) in E.
  congruence.
Qed.

Lemma generate_image_no_upload (w : World) (prompt : pyval) :
  upload_to_r2_invoked (trace (generate_image w prompt)) = false
  /\ put_object_invoked (trace (generate_image w prompt)) = false.
Proof.
  destruct (generate_image_shape w prompt) as (tr & r & -> & Htr & _).
  destruct Htr as [->|[req ->]]; split; reflexivity.
Qed.

(** *** Splitting a data URL *)

Lemma prefix_app (p s : string) :
  String.prefix p s = true -> exists rest, s = p +:+ rest.
Proof.
  revert s. induction p as [|c p IH]; intros s H.
  - exists s. reflexivity.
  - destruct s as [|c' s]; simpl in H; [discriminate|].
    destruct (ascii_dec c c') as [->|]; [|discriminate].
    apply IH in H as [rest ->]. exists rest. reflexivity.
Qed.

Lemma str_split_nonempty (sep : ascii) (s : string) :
  exists piece pieces, str_split sep s = piece :: pieces.
Proof.
  destruct s as [|c s]; simpl; [eauto|].
  destruct (Ascii.eqb c sep); [eauto|].
  destruct (str_split sep s); eauto.
Qed.

Lemma str_split_first (s : string) :
  str_split "," s !! 0%nat = Some (up_to_comma s).
Proof.
  induction s as [|c s IH]; simpl; [reflexivity|].
  destruct (Ascii.eqb c ","); [reflexivity|].
  destruct (str_split "," s) as [|piece pieces]; [discriminate|].
  simpl in *. congruence.
Qed.

(** The second piece is the text between the first comma and the next. *)
Lemma str_split_second (s : string) :
  str_split "," s !! 1%nat
  = if has_comma s then Some (up_to_comma (after_first_comma s)) else None.
Proof.
  induction s as [|c s IH]; simpl; [reflexivity|].
  destruct (Ascii.eqb c ","); simpl.
  - apply str_split_first.
  - destruct (str_split_nonempty "," s) as (piece & pieces & E).
    rewrite E in *. simpl in *. exact IH.
Qed.

Lemma has_comma_prefixed (s : string) :
  String.prefix data_url_prefix s = true -> has_comma s = true.
Proof.
  intros H. apply prefix_app in H as [rest ->]. reflexivity.
Qed.

Lemma up_to_comma_no_comma (s : string) :
  has_comma s = false -> up_to_comma s = s.
Proof.
  induction s as [|c s IH]; simpl; [reflexivity|].
  destruct (Ascii.eqb c ","); simpl; [discriminate|].
  intros H. now rewrite IH.
Qed.

(** *** [upload_to_r2], case by case *)

Section UploadToR2.
Variable w : World.
Variable image_data : string.

Lemma upload_no_bucket :
  environ w !! "R2_BUCKET_NAME" = None ->
  upload_to_r2 w image_data
  = ([CallUploadToR2 image_data],
     Raise (HTTPException 500
       ("R2 upload failed: " +:+
        py_str w (HTTPException 500
                    "R2_BUCKET_NAME environment variable not set")))).
Proof.
  intros Hb. unfold upload_to_r2. simpl.
  rewrite (environ_contains_None _ _ Hb). reflexivity.
Qed.

Variable bucket : string.
Hypothesis Hbucket : environ w !! "R2_BUCKET_NAME" = Some bucket.

Lemma upload_no_domain :
  environ w !! "R2_PUBLIC_DOMAIN" = None ->
  upload_to_r2 w image_data
  = ([CallUploadToR2 image_data],
     Raise (HTTPException 500
       ("R2 upload failed: " +:+
        py_str w (HTTPException 500
                    "R2_PUBLIC_DOMAIN environment variable not set")))).
Proof.
  intros Hd. unfold upload_to_r2. simpl.
  rewrite (environ_contains_Some _ _ _ Hbucket).
  rewrite (environ_contains_None _ _ Hd). reflexivity.
Qed.

Variable domain : string.
Hypothesis Hdomain : environ w !! "R2_PUBLIC_DOMAIN" = Some domain.

Lemma upload_decode_raises (e : exn) :
  b64decode w image_data = Raise e ->
  upload_to_r2 w image_data
  = ([CallUploadToR2 image_data],
     Raise (HTTPException 500 ("R2 upload failed: " +:+ py_str w e))).
Proof.
  intros Hdec. unfold upload_to_r2. simpl.
  rewrite (environ_contains_Some _ _ _ Hbucket).
  rewrite (environ_contains_Some _ _ _ Hdomain). simpl.
  rewrite Hdec. reflexivity.
Qed.

Variable image_bytes : list byte.
Hypothesis Hdecode : b64decode w image_data = Return image_bytes.

Let args : PutObjectArgs :=
  {| Bucket := bucket;
     Key := key_at (time_time w);
     Body := image_bytes;
     ContentType := "image/png" |}.

Lemma upload_put_raises (e : exn) :
  s3_put_object w args = Raise e ->
  upload_to_r2 w image_data
  = ([CallUploadToR2 image_data; PutObject args],
     Raise (HTTPException 500 ("R2 upload failed: " +:+ py_str w e))).
Proof.
  intros Hput. unfold upload_to_r2, environ_getitem. simpl.
  rewrite (environ_contains_Some _ _ _ Hbucket).
  rewrite (environ_contains_Some _ _ _ Hdomain). simpl.
  rewrite Hdecode. simpl. rewrite Hbucket. simpl.
  fold (key_at (time_time w)). fold args. rewrite Hput. reflexivity.
Qed.

Lemma upload_stored :
  s3_put_object w args = Return tt ->
  upload_to_r2 w image_data
  = ([CallUploadToR2 image_data; PutObject args],
     Return ("https://" +:+ domain +:+ "/" +:+ key_at (time_time w))).
Proof.
  intros Hput. unfold upload_to_r2, environ_getitem. simpl.
  rewrite (environ_contains_Some _ _ _ Hbucket).
  rewrite (environ_contains_Some _ _ _ Hdomain). simpl.
  rewrite Hdecode. simpl. rewrite Hbucket. simpl.
  fold (key_at (time_time w)). fold args. rewrite Hput. simpl.
  rewrite Hdomain. reflexivity.
Qed.

End UploadToR2.

(** Whatever the world does, [upload_to_r2] leaves its entry and at most
    one store call, whose key is the clock's, and raises nothing but a
    500 whose detail starts with the upload prefix. *)
Lemma upload_to_r2_shape (w : World) (image_data : string) :
  exists (tr : list event) (r : result string),
    upload_to_r2 w image_data = (CallUploadToR2 image_data :: tr, r)
    /\ (tr = []
        \/ exists args, tr = [PutObject args]
             /\ Key args = key_at (time_time w))
    /\ (forall e, r = Raise e -> exists msg,
          e = HTTPException 500 ("R2 upload failed: " +:+ msg)).
Proof.
  destruct (environ w !! "R2_BUCKET_NAME") as [bucket|] eqn:Hb.
  2:{ rewrite (upload_no_bucket _ _ Hb).
      do 2 eexists. split; [reflexivity|]. split; [now left|].
      intros e [= <-]. eauto. }
  destruct (environ w !! "R2_PUBLIC_DOMAIN") as [domain|] eqn:Hd.
  2:{ rewrite (upload_no_domain _ _ _ Hb Hd).
      do 2 eexists. split; [reflexivity|]. split; [now left|].
      intros e [= <-]. eauto. }
  destruct (b64decode w image_data) as [bytes|e] eqn:Hdec.
  2:{ rewrite (upload_decode_raises _ _ _ Hb _ Hd e Hdec).
      do 2 eexists. split; [reflexivity|]. split; [now left|].
      intros e' [= <-]. eauto. }
  destruct (s3_put_object w
              {| Bucket := bucket; Key := key_at (time_time w);
                 Body := bytes; ContentType := "image/png" |})
    as [[]|e] eqn:Hput.
  - rewrite (upload_stored _ _ _ Hb _ Hd _ Hdec Hput).
    do 2 eexists. split; [reflexivity|]. split; [right; eauto|].
    intros e [=].
  - rewrite (upload_put_raises _ _ _ Hb _ Hd _ Hdec e Hput).
    do 2 eexists. split; [reflexivity|]. split; [right; eauto|].
    intros e' [= <-]. eauto.
Qed.

(** *** [generate_endpoint] in terms of its two collaborators *)

Lemma generate_endpoint_falsy (w : World) (payload : list (string * pyval)) :
  truthy (dict_get payload "prompt") = false ->
  generate_endpoint w payload
  = ([], Raise (HTTPException 400 "Prompt is required")).
Proof.
  intros H. unfold generate_endpoint. rewrite H. reflexivity.
Qed.

Lemma generate_endpoint_truthy (w : World) (payload : list (string * pyval)) :
  truthy (dict_get payload "prompt") = true ->
  generate_endpoint w payload
  = match generate_image w (dict_get payload "prompt") with
    | (tr1, Raise e) => (tr1, Raise e)
    | (tr1, Return base64_image) =>
        match upload_to_r2 w base64_image with
        | (tr2, Raise e) => (tr1 ++ tr2, Raise e)
        | (tr2, Return image_url) =>
            (tr1 ++ tr2, Return (PyDict [("image_url", PyStr image_url)]))
        end
    end.
Proof.
  intros H. unfold generate_endpoint. rewrite H. simpl.
  destruct (generate_image_shape w (dict_get payload "prompt"))
    as (tr1 & r1 & -> & _ & Hr1).
  destruct r1 as [base64_image|e]; simpl.
  2:{ destruct (Hr1 e eq_refl) as (status & detail & ->).
      simpl. now rewrite app_nil_r. }
  destruct (upload_to_r2_shape w base64_image) as (tr2 & r2 & -> & _ & Hr2).
  destruct r2 as [image_url|e]; simpl.
  - now rewrite !app_nil_r.
  - destruct (Hr2 e eq_refl) as (msg & ->). simpl. now rewrite !app_nil_r.
Qed.

(* ===================================================================== *)
(** ** Prompt validation *)
(* ===================================================================== *)

Lemma whitespace_only_truthy (s : string) :
  whitespace_only s = true -> truthy (PyStr s) = true.
Proof. destruct s; [discriminate|reflexivity]. Qed.

(** C1: a payload whose [prompt] is absent, the empty string, or any other
    falsy value is answered with status 400 and detail "Prompt is
    required"; the run performs no call at all, so neither
    [generate_image] nor [upload_to_r2] is invoked. *)
Theorem C1_falsy_prompt_rejected
    (w : World) (payload : list (string * pyval)) :
  (forall v, ~ In ("prompt", v) payload)
  \/ dict_get payload "prompt" = PyStr ""
  \/ truthy (dict_get payload "prompt") = false ->
  post_generate w payload
  = {| reply_status := 400;
       reply_body := PyDict [("detail", PyStr "Prompt is required")] |}
  /\ trace (generate_endpoint w payload) = []
  /\ generate_image_invoked (trace (generate_endpoint w payload)) = false
  /\ upload_to_r2_invoked (trace (generate_endpoint w payload)) = false.
Proof.
  intros H.
  assert (Hfalsy : truthy (dict_get payload "prompt") = false).
  { destruct H as [H|[H|H]].
    - now rewrite (dict_get_absent _ _ H).
    - now rewrite H.
    - exact H. }
  unfold post_generate. rewrite (generate_endpoint_falsy _ _ Hfalsy).
  repeat split.
Qed.

(* ===================================================================== *)
(** ** Upstream failures *)
(* ===================================================================== *)

Lemma is_success_range (r : Response) :
  is_success r = true <-> 200 <= status_code r <= 299.
Proof. unfold is_success. rewrite andb_true_iff, !Z.leb_le. tauto. Qed.

Lemma is_success_outside (r : Response) :
  ~ (200 <= status_code r <= 299) -> is_success r = false.
Proof.
  intros H. destruct (is_success r) eqn:E; [|reflexivity].
  apply is_success_range in E. contradiction.
Qed.

(** What the endpoint does once [generate_image] has raised. *)
Lemma generate_endpoint_generation_failed
    (w : World) (payload : list (string * pyval))
    (tr : list event) (status : Z) (detail : string) :
  truthy (dict_get payload "prompt") = true ->
  generate_image w (dict_get payload "prompt")
  = (tr, Raise (HTTPException status detail)) ->
  generate_endpoint w payload = (tr, Raise (HTTPException status detail)).
Proof.
  intros Ht E. rewrite (generate_endpoint_truthy _ _ Ht), E. reflexivity.
Qed.

(** C3: when the generation API answers with a status [s] outside
    200..299, the endpoint fails with status [s] itself, not with 500,
    and [upload_to_r2] is not invoked. *)
Theorem C3_upstream_status_passed_through
    (w : World) (payload : list (string * pyval))
    (api_key : string) (response : Response) :
  truthy (dict_get payload "prompt") = true ->
  environ w !! "FLUX_API_KEY" = Some api_key ->
  http_post w (generation_request api_key (dict_get payload "prompt"))
  = Return response ->
  ~ (200 <= status_code response <= 299) ->
  reply_status (post_generate w payload) = status_code response
  /\ (exists detail,
        outcome (generate_endpoint w payload)
        = Raise (HTTPException (status_code response)
                   ("Image generation failed: " +:+ detail)))
  /\ upload_to_r2_invoked (trace (generate_endpoint w payload)) = false
  /\ put_object_invoked (trace (generate_endpoint w payload)) = false.
Proof.
  intros Ht Hkey Hpost Hst. apply is_success_outside in Hst.
  pose proof (generate_image_status_error _ _ _ Hkey _ Hpost Hst) as E.
  unfold post_generate.
  rewrite (generate_endpoint_generation_failed _ _ _ _ _ Ht E).
  repeat split. eexists. reflexivity.
Qed.

(** C4: when the generation API answers 2xx with a decoded body whose
    [result] is missing, falsy, or not a string starting with
    "data:image/png;base64,", the endpoint fails with status 500 and
    [upload_to_r2] is not invoked. *)
Theorem C4_malformed_result_is_500
    (w : World) (payload : list (string * pyval))
    (api_key : string) (response : Response) (body : pyval) :
  truthy (dict_get payload "prompt") = true ->
  environ w !! "FLUX_API_KEY" = Some api_key ->
  http_post w (generation_request api_key (dict_get payload "prompt"))
  = Return response ->
  200 <= status_code response <= 299 ->
  json response = Return body ->
  (exists items, body = PyDict items /\ forall v, ~ In ("result", v) items)
  \/ truthy (result_field body) = false
  \/ starts_with_prefix (result_field body) = false ->
  reply_status (post_generate w payload) = 500
  /\ upload_to_r2_invoked (trace (generate_endpoint w payload)) = false
  /\ put_object_invoked (trace (generate_endpoint w payload)) = false.
Proof.
  intros Ht Hkey Hpost Hst Hjson Hbad. apply is_success_range in Hst.
  assert (Hbad' : truthy (result_field body) = false
                  \/ starts_with_prefix (result_field body) = false).
  { destruct Hbad as [(items & -> & Habs)|[H|H]]; [left|now left|now right].
    simpl. now rewrite (dict_get_absent _ _ Habs). }
  destruct (generate_image_bad_result _ _ _ Hkey _ Hpost Hst _ Hjson Hbad')
    as [msg E].
  unfold post_generate.
  rewrite (generate_endpoint_generation_failed _ _ _ _ _ Ht E).
  repeat split.
Qed.

(* ===================================================================== *)
(** ** The data URL and the object key *)
(* ===================================================================== *)

(** C5, as stated, fails: the data URL "data:image/png;base64,ab,cd"
    passes the prefix check and [generate_image] returns "ab", which is
    not the whole text "ab,cd" after the first comma. *)
Lemma C5_split_stops_at_second_comma :
  String.prefix data_url_prefix Examples.two_commas = true
  /\ after_first_comma Examples.two_commas = "ab,cd"
  /\ outcome (generate_image Examples.two_commas_world (PyStr "a cat"))
     = Return "ab"
  /\ outcome (generate_image Examples.two_commas_world (PyStr "a cat"))
     <> Return (after_first_comma Examples.two_commas).
Proof. vm_compute. repeat split; congruence. Qed.

(** C5, amended: for a data URL that passes the prefix check,
    [generate_image] returns the text between the first comma and the
    next one; when nothing after the first comma is a comma, that is the
    whole text after the first comma. *)
Theorem C5_returns_second_piece
    (w : World) (prompt : pyval) (api_key : string)
    (response : Response) (body : pyval) (data_url : string) :
  environ w !! "FLUX_API_KEY" = Some api_key ->
  http_post w (generation_request api_key prompt) = Return response ->
  200 <= status_code response <= 299 ->
  json response = Return body ->
  result_field body = PyStr data_url ->
  String.prefix data_url_prefix data_url = true ->
  outcome (generate_image w prompt)
  = Return (up_to_comma (after_first_comma data_url))
  /\ (has_comma (after_first_comma data_url) = false ->
      outcome (generate_image w prompt)
      = Return (after_first_comma data_url)).
Proof.
  intros Hkey Hpost Hst Hjson Hres Hpre. apply is_success_range in Hst.
  rewrite (generate_image_data_url _ _ _ Hkey _ Hpost Hst _ Hjson
             data_url Hres Hpre).
  rewrite str_split_second, (has_comma_prefixed _ Hpre). simpl.
  split; [reflexivity|].
  intros Hno. now rewrite (up_to_comma_no_comma _ Hno).
Qed.

Lemma put_keys_in_upload (w : World) (image_data key : string) :
  In key (put_keys (trace (upload_to_r2 w image_data))) ->
  key = key_at (time_time w).
Proof.
  destruct (upload_to_r2_shape w image_data) as (tr & r & -> & Htr & _).
  destruct Htr as [->|(args & -> & Hk)]; simpl; [tauto|].
  intros [<-|[]]. exact Hk.
Qed.

(** C2: with the bucket and the public domain configured and an input
    that decodes, a call made when the clock reads [t] hands the store
    the key "generated_image_<int(t)>.png", [int(t)] printed in decimal,
    and whenever it returns, it returns "https://<domain>/<key>" (which
    it does as soon as the store accepts the object).  Any other call
    whose clock reads the same whole second uses the same key. *)
Theorem C2_key_and_url_from_clock
    (w : World) (image_data bucket domain : string)
    (image_bytes : list byte) :
  environ w !! "R2_BUCKET_NAME" = Some bucket ->
  environ w !! "R2_PUBLIC_DOMAIN" = Some domain ->
  b64decode w image_data = Return image_bytes ->
  let key :=
    "generated_image_" +:+ pretty (int_of_float (time_time w)) +:+ ".png" in
  put_keys (trace (upload_to_r2 w image_data)) = [key]
  /\ (forall url, outcome (upload_to_r2 w image_data) = Return url ->
        url = "https://" +:+ domain +:+ "/" +:+ key)
  /\ (s3_put_object w {| Bucket := bucket; Key := key;
                         Body := image_bytes;
                         ContentType := "image/png" |} = Return tt ->
      outcome (upload_to_r2 w image_data)
      = Return ("https://" +:+ domain +:+ "/" +:+ key))
  /\ (forall (w' : World) (image_data' key' : string),
        int_of_float (time_time w') = int_of_float (time_time w) ->
        In key' (put_keys (trace (upload_to_r2 w' image_data'))) ->
        key' = key).
Proof.
  intros Hb Hd Hdec key.
  change key with (key_at (time_time w)).
  destruct (s3_put_object w
              {| Bucket := bucket; Key := key_at (time_time w);
                 Body := image_bytes; ContentType := "image/png" |})
    as [[]|e] eqn:Hput.
  - rewrite (upload_stored _ _ _ Hb _ Hd _ Hdec Hput). simpl.
    repeat split.
    + now intros url [= <-].
    + intros w' d' key' Hsame Hin.
      rewrite (put_keys_in_upload _ _ _ Hin). unfold key_at.
      now rewrite Hsame.
  - rewrite (upload_put_raises _ _ _ Hb _ Hd _ Hdec e Hput). simpl.
    repeat split.
    + intros url [=].
    + intros [=].
    + intros w' d' key' Hsame Hin.
      rewrite (put_keys_in_upload _ _ _ Hin). unfold key_at.
      now rewrite Hsame.
Qed.

(* ===================================================================== *)
(** ** Sequencing of the two steps *)
(* ===================================================================== *)

(** A list that has a single element satisfying [P] splits around that
    element in one way only. *)
Lemma split_around_unique {A} (P : A -> bool)
    (xs' ys' xs ys : list A) (a a' : A) :
  existsb P xs' = false -> existsb P ys' = false ->
  P a = true ->
  xs ++ a :: ys = xs' ++ a' :: ys' ->
  xs = xs' /\ a = a' /\ ys = ys'.
Proof.
  intros Hxs' Hys' Ha. revert xs.
  induction xs' as [|x' xs' IH]; intros xs E.
  - destruct xs as [|x xs]; simpl in E.
    + injection E as -> ->. auto.
    + injection E as -> E. exfalso.
      rewrite <- E, existsb_app in Hys'. simpl in Hys'.
      rewrite Ha, orb_true_r in Hys'. discriminate.
  - simpl in Hxs'. apply orb_false_iff in Hxs' as [Hx' Hxs'].
    destruct xs as [|x xs]; simpl in E.
    + injection E as -> E. congruence.
    + injection E as -> E. destruct (IH Hxs' xs E) as (-> & -> & ->).
      auto.
Qed.

Lemma upload_to_r2_trace (w : World) (image_data : string) :
  exists tr, trace (upload_to_r2 w image_data)
             = CallUploadToR2 image_data :: tr
             /\ existsb is_upload_call tr = false.
Proof.
  destruct (upload_to_r2_shape w image_data) as (tr & r & -> & Htr & _).
  exists tr. split; [reflexivity|].
  destruct Htr as [->|(args & -> & _)]; reflexivity.
Qed.

(** C7: the uploader is entered only once [generate_image] has returned,
    with the value it returned; the endpoint returns the success body
    [{"image_url": url}] (status 200) exactly when the prompt passed
    validation, [generate_image] returned and [upload_to_r2] returned
    [url]; in every other case it raises an [HTTPException] and returns
    no body. *)
Theorem C7_success_iff_both_steps
    (w : World) (payload : list (string * pyval)) :
  (forall tr1 image_data tr2,
     trace (generate_endpoint w payload)
     = tr1 ++ CallUploadToR2 image_data :: tr2 ->
     generate_image w (dict_get payload "prompt")
     = (tr1, Return image_data))
  /\ (forall body,
        outcome (generate_endpoint w payload) = Return body <->
        truthy (dict_get payload "prompt") = true
        /\ exists image_data url,
             outcome (generate_image w (dict_get payload "prompt"))
             = Return image_data
             /\ outcome (upload_to_r2 w image_data) = Return url
             /\ body = PyDict [("image_url", PyStr url)])
  /\ (forall body,
        outcome (generate_endpoint w payload) = Return body ->
        post_generate w payload
        = {| reply_status := 200; reply_body := body |})
  /\ ((exists body, outcome (generate_endpoint w payload) = Return body)
      \/ (exists status detail,
            outcome (generate_endpoint w payload)
            = Raise (HTTPException status detail))).
Proof.
  set (prompt := dict_get payload "prompt").
  destruct (truthy prompt) eqn:Ht.
  2:{ rewrite (generate_endpoint_falsy _ _ Ht). simpl.
      split; [|split; [|split]].
      - intros tr1 d tr2 E. destruct tr1; discriminate.
      - intros body. split; [discriminate|]. intros [[=] _].
      - discriminate.
      - right. eauto. }
  unfold post_generate. rewrite (generate_endpoint_truthy _ _ Ht).
  fold prompt.
  destruct (generate_image_shape w prompt) as (tr & r & E & Htr & Hr).
  assert (Hgen : existsb is_upload_call (CallGenerateImage prompt :: tr)
                 = false).
  { destruct Htr as [->|[req ->]]; reflexivity. }
  rewrite E. destruct r as [d|e].
  2:{ destruct (Hr e eq_refl) as (status & detail & ->). simpl.
      split; [|split; [|split]].
      - intros tr1 d tr2 E'. exfalso.
        rewrite E' in Hgen.
        rewrite existsb_app in Hgen. simpl in Hgen.
        rewrite orb_true_r in Hgen. discriminate.
      - intros body. split; [discriminate|].
        intros (_ & d & url & [=] & _).
      - discriminate.
      - right. eauto. }
  destruct (upload_to_r2_trace w d) as (tru & Etr & Hup).
  destruct (upload_to_r2_shape w d) as (tru' & r2 & E2 & _ & Hr2).
  rewrite E2 in *. simpl in Etr. injection Etr as ->.
  assert (Hsplit : forall (r' : result pyval) tr1 d' tr2,
    trace ((CallGenerateImage prompt :: tr) ++ CallUploadToR2 d :: tru, r')
    = tr1 ++ CallUploadToR2 d' :: tr2 ->
    (CallGenerateImage prompt :: tr, @Return string d)
    = (tr1, Return d')).
  { intros r' tr1 d' tr2 E'. unfold trace in E'. simpl fst in E'.
    symmetry in E'.
    destruct (split_around_unique is_upload_call
                (CallGenerateImage prompt :: tr) tru tr1 tr2
                (CallUploadToR2 d') (CallUploadToR2 d)
                Hgen Hup eq_refl E') as (-> & [= ->] & _).
    reflexivity. }
  destruct r2 as [url|e].
  - split; [apply Hsplit|]. simpl. split; [|split].
    + intros body. split.
      * intros [= <-]. split; [reflexivity|]. exists d, url.
        rewrite ?E, ?E2. simpl. auto.
      * intros (_ & d' & url' & [= <-] & Hu & ->).
        rewrite E2 in Hu. simpl in Hu. now injection Hu as ->.
    + now intros body [= <-].
    + left. eauto.
  - destruct (Hr2 e eq_refl) as (msg & ->).
    split; [apply Hsplit|]. simpl. split; [|split].
    + intros body. split; [discriminate|].
      intros (_ & d' & url' & [= <-] & Hu & _).
      rewrite E2 in Hu. discriminate.
    + discriminate.
    + right. eauto.
Qed.

(* ===================================================================== *)
(** ** Failures inside the uploader *)
(* ===================================================================== *)

(** C8, as stated, fails: "a!Gk=" is not valid base64, yet the decoder,
    which skips the "!", accepts it; [upload_to_r2] hands the two decoded
    bytes to the store and returns the URL. *)
Lemma C8_invalid_text_is_stored :
  Base64.valid "a!Gk=" = false
  /\ b64decode Examples.happy "a!Gk=" = Return [x68; x69]
  /\ put_object_invoked (trace (upload_to_r2 Examples.happy "a!Gk=")) = true
  /\ outcome (upload_to_r2 Examples.happy "a!Gk=")
     = Return "https://cdn.example.org/generated_image_1700000000.png".
Proof. vm_compute. repeat split. Qed.

(** C8, amended: the decoder decides.  When [b64decode] raises on the
    input text, [upload_to_r2] fails with a 500 and [put_object] is not
    called; when [b64decode] returns bytes (as it does for text it only
    had to clean of stray characters) and bucket and domain are set,
    [put_object] is called with those bytes; when the [put_object] call
    it made raises, [upload_to_r2] fails with a 500 whose detail is
    "R2 upload failed: " followed by the store's error text. *)
Theorem C8_decode_or_store_failure (w : World) (image_data : string) :
  (forall e, b64decode w image_data = Raise e ->
     (exists msg,
        outcome (upload_to_r2 w image_data)
        = Raise (HTTPException 500 ("R2 upload failed: " +:+ msg)))
     /\ put_object_invoked (trace (upload_to_r2 w image_data)) = false
     /\ put_keys (trace (upload_to_r2 w image_data)) = [])
  /\ (forall args e,
        In (PutObject args) (trace (upload_to_r2 w image_data)) ->
        s3_put_object w args = Raise e ->
        outcome (upload_to_r2 w image_data)
        = Raise (HTTPException 500
                   ("R2 upload failed: " +:+ py_str w e)))
  /\ (forall bucket domain image_bytes,
        environ w !! "R2_BUCKET_NAME" = Some bucket ->
        environ w !! "R2_PUBLIC_DOMAIN" = Some domain ->
        b64decode w image_data = Return image_bytes ->
        trace (upload_to_r2 w image_data)
        = [CallUploadToR2 image_data;
           PutObject {| Bucket := bucket;
                        Key := "generated_image_"
                               +:+ pretty (int_of_float (time_time w))
                               +:+ ".png";
                        Body := image_bytes;
                        ContentType := "image/png" |}]).
Proof.
  assert (Hcalled : forall bucket domain image_bytes,
    environ w !! "R2_BUCKET_NAME" = Some bucket ->
    environ w !! "R2_PUBLIC_DOMAIN" = Some domain ->
    b64decode w image_data = Return image_bytes ->
    trace (upload_to_r2 w image_data)
    = [CallUploadToR2 image_data;
       PutObject {| Bucket := bucket; Key := key_at (time_time w);
                    Body := image_bytes; ContentType := "image/png" |}]).
  { intros bucket domain image_bytes Hb Hd Hdec.
    destruct (s3_put_object w
                {| Bucket := bucket; Key := key_at (time_time w);
                   Body := image_bytes; ContentType := "image/png" |})
      as [[]|e] eqn:Hput.
    - now rewrite (upload_stored _ _ _ Hb _ Hd _ Hdec Hput).
    - now rewrite (upload_put_raises _ _ _ Hb _ Hd _ Hdec e Hput). }
  cut ((forall e, b64decode w image_data = Raise e ->
          (exists msg,
             outcome (upload_to_r2 w image_data)
             = Raise (HTTPException 500 ("R2 upload failed: " +:+ msg)))
          /\ put_object_invoked (trace (upload_to_r2 w image_data)) = false
          /\ put_keys (trace (upload_to_r2 w image_data)) = [])
       /\ (forall args e,
             In (PutObject args) (trace (upload_to_r2 w image_data)) ->
             s3_put_object w args = Raise e ->
             outcome (upload_to_r2 w image_data)
             = Raise (HTTPException 500
                        ("R2 upload failed: " +:+ py_str w e)))).
  { intros [H1 H2]. split; [exact H1|]. split; [exact H2|exact Hcalled]. }
  clear Hcalled.
  destruct (environ w !! "R2_BUCKET_NAME") as [bucket|] eqn:Hb.
  2:{ rewrite (upload_no_bucket _ _ Hb). simpl. split.
      - intros e _. split; [eauto|split; reflexivity].
      - intros args e [[=]|[]]. }
  destruct (environ w !! "R2_PUBLIC_DOMAIN") as [domain|] eqn:Hd.
  2:{ rewrite (upload_no_domain _ _ _ Hb Hd). simpl. split.
      - intros e _. split; [eauto|split; reflexivity].
      - intros args e [[=]|[]]. }
  destruct (b64decode w image_data) as [bytes|e0] eqn:Hdec.
  2:{ rewrite (upload_decode_raises _ _ _ Hb _ Hd e0 Hdec). simpl. split.
      - intros e _. split; [eauto|split; reflexivity].
      - intros args e [[=]|[]]. }
  split; [discriminate|].
  intros args e Hin Hput.
  assert (Hargs : args = {| Bucket := bucket; Key := key_at (time_time w);
                            Body := bytes; ContentType := "image/png" |}).
  { destruct (s3_put_object w
                {| Bucket := bucket; Key := key_at (time_time w);
                   Body := bytes; ContentType := "image/png" |})
      as [[]|e1] eqn:Hput1.
    - rewrite (upload_stored _ _ _ Hb _ Hd _ Hdec Hput1) in Hin.
      destruct Hin as [[=]|[[= <-]|[]]]. reflexivity.
    - rewrite (upload_put_raises _ _ _ Hb _ Hd _ Hdec e1 Hput1) in Hin.
      destruct Hin as [[=]|[[= <-]|[]]]. reflexivity. }
  subst args.
  now rewrite (upload_put_raises _ _ _ Hb _ Hd _ Hdec e Hput).
Qed.

(* ===================================================================== *)
(** ** Exceptions raised inside the [try] blocks *)
(* ===================================================================== *)

Section InvalidImageData.
Local Arguments String.prefix : simpl never.

(** The guard on [image_data_url] raises, and the catch-all handler of
    the same function wraps what it raised. *)
Lemma generate_image_invalid_data
    (w : World) (prompt : pyval) (api_key : string)
    (response : Response) (items : list (string * pyval)) :
  environ w !! "FLUX_API_KEY" = Some api_key ->
  http_post w (generation_request api_key prompt) = Return response ->
  is_success response = true ->
  json response = Return (PyDict items) ->
  truthy (dict_get items "result") = false
  \/ (exists s, dict_get items "result" = PyStr s
                /\ String.prefix data_url_prefix s = false) ->
  generate_image w prompt
  = ([CallGenerateImage prompt;
      HttpPost (generation_request api_key prompt)],
     Raise (HTTPException 500
       ("Image generation error: " +:+
        py_str w (HTTPException 500 "Invalid image data response")))).
Proof.
  intros Hkey Hpost Hok Hjson Hbad.
  unfold generate_image, environ_getitem.
  rewrite (environ_contains_Some _ _ _ Hkey), Hkey. simpl.
  rewrite Hpost. simpl.
  unfold raise_for_status. rewrite Hok. simpl. rewrite Hjson. simpl.
  destruct Hbad as [Hf|(s & Hs & Hpre)].
  - rewrite Hf. reflexivity.
  - rewrite Hs. destruct s as [|c s]; [reflexivity|].
    simpl. rewrite Hpre. reflexivity.
Qed.
End InvalidImageData.

(** C9: an [HTTPException] raised inside the [try] block of
    [generate_image] (API key missing, invalid image data) or of
    [upload_to_r2] (bucket or public domain missing) is caught by that
    function's own [except Exception] and replaced by a fresh 500 whose
    detail is "Image generation error: " or "R2 upload failed: " followed
    by [str] of the caught exception; the detail first attached is never
    the detail that leaves the function, and the endpoint hands the
    replacement to the caller unchanged. *)
Theorem C9_http_exceptions_rewrapped (w : World) :
  (forall prompt,
     environ w !! "FLUX_API_KEY" = None ->
     outcome (generate_image w prompt)
     = Raise (HTTPException 500
         ("Image generation error: " +:+
          py_str w (HTTPException 500
                      "FLUX_API_KEY environment variable not set"))))
  /\ (forall prompt api_key response items,
        environ w !! "FLUX_API_KEY" = Some api_key ->
        http_post w (generation_request api_key prompt) = Return response ->
        200 <= status_code response <= 299 ->
        json response = Return (PyDict items) ->
        truthy (dict_get items "result") = false
        \/ (exists s, dict_get items "result" = PyStr s
                      /\ String.prefix data_url_prefix s = false) ->
        outcome (generate_image w prompt)
        = Raise (HTTPException 500
            ("Image generation error: " +:+
             py_str w (HTTPException 500 "Invalid image data response"))))
  /\ (forall image_data var,
        In var ["R2_BUCKET_NAME"; "R2_PUBLIC_DOMAIN"] ->
        environ w !! var = None ->
        exists missing,
          In missing ["R2_BUCKET_NAME"; "R2_PUBLIC_DOMAIN"]
          /\ environ w !! missing = None
          /\ outcome (upload_to_r2 w image_data)
             = Raise (HTTPException 500
                 ("R2 upload failed: " +:+
                  py_str w (HTTPException 500
                    (missing +:+ " environment variable not set")))))
  /\ (forall text,
        "Image generation error: " +:+ text
          <> "FLUX_API_KEY environment variable not set"
        /\ "Image generation error: " +:+ text
          <> "Invalid image data response"
        /\ "R2 upload failed: " +:+ text
          <> "R2_BUCKET_NAME environment variable not set"
        /\ "R2 upload failed: " +:+ text
          <> "R2_PUBLIC_DOMAIN environment variable not set")
  /\ (forall payload,
        truthy (dict_get payload "prompt") = true ->
        (forall e,
           outcome (generate_image w (dict_get payload "prompt")) = Raise e ->
           outcome (generate_endpoint w payload) = Raise e)
        /\ (forall image_data e,
              outcome (generate_image w (dict_get payload "prompt"))
              = Return image_data ->
              outcome (upload_to_r2 w image_data) = Raise e ->
              outcome (generate_endpoint w payload) = Raise e)).
Proof.
  split; [|split; [|split; [|split]]].
  - intros prompt Hkey. now rewrite (generate_image_no_key _ _ Hkey).
  - intros prompt api_key response items Hkey Hpost Hst Hjson Hbad.
    apply is_success_range in Hst.
    now rewrite (generate_image_invalid_data _ _ _ _ _
                   Hkey Hpost Hst Hjson Hbad).
  - intros image_data var Hin Hvar.
    destruct (environ w !! "R2_BUCKET_NAME") as [bucket|] eqn:Hb.
    + destruct Hin as [<-|[<-|[]]]; [congruence|].
      exists "R2_PUBLIC_DOMAIN". split; [right; now left|].
      split; [exact Hvar|].
      now rewrite (upload_no_domain _ _ _ Hb Hvar).
    + exists "R2_BUCKET_NAME". split; [now left|]. split; [exact Hb|].
      now rewrite (upload_no_bucket _ _ Hb).
  - intros text. repeat split; discriminate.
  - intros payload Ht. rewrite (generate_endpoint_truthy _ _ Ht).
    destruct (generate_image w (dict_get payload "prompt")) as [tr1 r1].
    split.
    + intros e. simpl. intros ->. reflexivity.
    + intros d e. simpl. intros ->.
      destruct (upload_to_r2 w d) as [tr2 r2]. simpl. intros ->.
      reflexivity.
Qed.

(* ===================================================================== *)
(** ** Missing configuration *)
(* ===================================================================== *)

Lemma lifespan_ignores (lib : Constructors) (env : gmap string string)
    (var v : string) :
  ~ In var startup_variables ->
  lifespan lib (<[var:=v]> env) = lifespan lib env.
Proof.
  intros Hnot. unfold lifespan, environ_getitem.
  rewrite !lookup_insert_ne; [reflexivity|..];
    intros ->; apply Hnot; simpl; tauto.
Qed.

Lemma lifespan_missing (lib : Constructors) (env : gmap string string)
    (var : string) :
  In var startup_variables -> env !! var = None ->
  exists missing,
    In missing startup_variables
    /\ env !! missing = None
    /\ lifespan lib env = ([], Raise (KeyError missing)).
Proof.
  intros Hin Hvar. unfold lifespan, environ_getitem.
  destruct (env !! "R2_ENDPOINT_URL") as [endpoint|] eqn:H1.
  2:{ exists "R2_ENDPOINT_URL". simpl. auto. }
  destruct (env !! "R2_ACCESS_KEY_ID") as [access|] eqn:H2.
  2:{ exists "R2_ACCESS_KEY_ID". simpl. auto. }
  destruct (env !! "R2_SECRET_ACCESS_KEY") as [secret|] eqn:H3.
  2:{ exists "R2_SECRET_ACCESS_KEY". simpl. auto 6. }
  exfalso. destruct Hin as [<-|[<-|[<-|[]]]]; congruence.
Qed.

(** C6, as stated, fails for a variable read by [lifespan]: without
    R2_ENDPOINT_URL the startup hook raises [KeyError] and no client is
    built, so the failure is at startup, not at first use. *)
Lemma C6_startup_read_raises :
  In "R2_ENDPOINT_URL" required_environment
  /\ Examples.no_endpoint !! "R2_ENDPOINT_URL" = None
  /\ lifespan Examples.libraries Examples.no_endpoint
     = ([], Raise (KeyError "R2_ENDPOINT_URL"))
  /\ ~ (exists clients,
          outcome (lifespan Examples.libraries Examples.no_endpoint)
          = Return clients).
Proof.
  split; [now left|]. split; [reflexivity|]. split; [reflexivity|].
  intros [clients H]. vm_compute in H. discriminate.
Qed.

(** C6, amended: FLUX_API_KEY, R2_BUCKET_NAME and R2_PUBLIC_DOMAIN are not
    read at startup ([lifespan] behaves the same with or without them);
    when one is missing, the operation that checks it ([generate_image]
    for the API key, [upload_to_r2] for the two storage names) raises a
    500 before any outbound call.  R2_ENDPOINT_URL, R2_ACCESS_KEY_ID and
    R2_SECRET_ACCESS_KEY are read by [lifespan]: when one is missing the
    startup hook raises [KeyError]. *)
Theorem C6_missing_variable
    (lib : Constructors) (w : World) (var : string) :
  In var required_environment ->
  environ w !! var = None ->
  (In var startup_variables
   /\ exists missing,
        In missing startup_variables
        /\ lifespan lib (environ w) = ([], Raise (KeyError missing)))
  \/ (~ In var startup_variables
      /\ (forall v, lifespan lib (<[var:=v]> (environ w))
                    = lifespan lib (environ w))
      /\ ((var = "FLUX_API_KEY"
           /\ forall prompt, exists detail,
                generate_image w prompt
                = ([CallGenerateImage prompt],
                   Raise (HTTPException 500 detail)))
          \/ ((var = "R2_BUCKET_NAME" \/ var = "R2_PUBLIC_DOMAIN")
              /\ forall image_data, exists detail,
                   upload_to_r2 w image_data
                   = ([CallUploadToR2 image_data],
                      Raise (HTTPException 500 detail))))).
Proof.
  intros Hin Hvar.
  assert (Hnot : forall x, x = "R2_BUCKET_NAME" \/ x = "R2_PUBLIC_DOMAIN"
                           \/ x = "FLUX_API_KEY" ->
                 ~ In x startup_variables).
  { intros x Hx Hs. simpl in Hs.
    destruct Hx as [ -> | [ -> | -> ] ]; destruct Hs as [H|[H|[H|[]]]];
      discriminate. }
  simpl in Hin.
  destruct Hin as [ <- | [ <- | [ <- | [ <- | [ <- | [ <- | [] ] ] ] ] ] ].
  - assert (Hs : In "R2_ENDPOINT_URL" startup_variables) by (simpl; auto).
    left. split; [exact Hs|].
    destruct (lifespan_missing lib _ _ Hs Hvar) as (m & Hm & _ & E).
    exists m. split; assumption.
  - assert (Hs : In "R2_ACCESS_KEY_ID" startup_variables) by (simpl; auto).
    left. split; [exact Hs|].
    destruct (lifespan_missing lib _ _ Hs Hvar) as (m & Hm & _ & E).
    exists m. split; assumption.
  - assert (Hs : In "R2_SECRET_ACCESS_KEY" startup_variables) by (simpl; auto).
    left. split; [exact Hs|].
    destruct (lifespan_missing lib _ _ Hs Hvar) as (m & Hm & _ & E).
    exists m. split; assumption.
  - right. split; [apply Hnot; auto|].
    split; [intros v; apply lifespan_ignores, Hnot; auto|].
    right. split; [auto|]. intros d.
    rewrite (upload_no_bucket _ _ Hvar). eauto.
  - right. split; [apply Hnot; auto|].
    split; [intros v; apply lifespan_ignores, Hnot; auto|].
    right. split; [auto|]. intros d.
    destruct (environ w !! "R2_BUCKET_NAME") as [bucket|] eqn:Hb.
    + rewrite (upload_no_domain _ _ _ Hb Hvar). eauto.
    + rewrite (upload_no_bucket _ _ Hb). eauto.
  - right. split; [apply Hnot; auto|].
    split; [intros v; apply lifespan_ignores, Hnot; auto|].
    left. split; [reflexivity|]. intros prompt.
    rewrite (generate_image_no_key _ _ Hvar). eauto.
Qed.

(* ===================================================================== *)
(** ** The properties at work on concrete requests *)
(* ===================================================================== *)

(** An empty prompt is turned away with 400 before anything is called. *)
Lemma empty_prompt_rejected :
  dict_get Examples.empty_prompt "prompt" = PyStr ""
  /\ post_generate Examples.happy Examples.empty_prompt
     = {| reply_status := 400;
          reply_body := PyDict [("detail", PyStr "Prompt is required")] |}
  /\ trace (generate_endpoint Examples.happy Examples.empty_prompt) = [].
Proof.
  split; [reflexivity|].
  destruct (C1_falsy_prompt_rejected Examples.happy Examples.empty_prompt)
    as (Hreply & Htrace & _).
  - right. left. reflexivity.
  - split; [exact Hreply|exact Htrace].
Defined.

(** A throttled request comes back as 429, not 500. *)
Lemma throttling_passed_through :
  ~ (200 <= status_code Examples.throttled_response <= 299)
  /\ reply_status (post_generate Examples.throttled Examples.cat) = 429.
Proof.
  assert (Hout : ~ (200 <= status_code Examples.throttled_response <= 299)).
  { simpl. lia. }
  split; [exact Hout|].
  apply (C3_upstream_status_passed_through Examples.throttled Examples.cat
           "sk-test" Examples.throttled_response).
  - reflexivity.
  - reflexivity.
  - reflexivity.
  - exact Hout.
Defined.

(** A link in place of a data URL is a 500, and nothing is uploaded. *)
Lemma link_answer_is_500 :
  starts_with_prefix (result_field Examples.link_body) = false
  /\ reply_status (post_generate Examples.linked Examples.cat) = 500
  /\ upload_to_r2_invoked
       (trace (generate_endpoint Examples.linked Examples.cat)) = false.
Proof.
  split; [reflexivity|].
  destruct (C4_malformed_result_is_500 Examples.linked Examples.cat
              "sk-test" Examples.link_response Examples.link_body)
    as (Hreply & Hup & _).
  - reflexivity.
  - reflexivity.
  - reflexivity.
  - simpl. lia.
  - reflexivity.
  - right. right. reflexivity.
  - split; [exact Hreply|exact Hup].
Defined.

(** The usual answer: the payload has no comma and comes back whole. *)
Lemma payload_returned_whole :
  String.prefix data_url_prefix "data:image/png;base64,aGk=" = true
  /\ has_comma (after_first_comma "data:image/png;base64,aGk=") = false
  /\ outcome (generate_image Examples.happy (PyStr "a cat")) = Return "aGk=".
Proof.
  split; [reflexivity|]. split; [reflexivity|].
  apply (C5_returns_second_piece Examples.happy (PyStr "a cat") "sk-test"
           {| status_code := 200;
              json := Return (PyDict
                [("result", PyStr "data:image/png;base64,aGk=")]) |}
           (PyDict [("result", PyStr "data:image/png;base64,aGk=")])
           "data:image/png;base64,aGk=").
  - reflexivity.
  - reflexivity.
  - simpl. lia.
  - reflexivity.
  - reflexivity.
  - reflexivity.
  - reflexivity.
Defined.

(** An upload at 1700000000.25 is stored under the key of that second. *)
Lemma upload_at_known_time :
  int_of_float (time_time Examples.happy) = 1700000000
  /\ put_keys (trace (upload_to_r2 Examples.happy "aGk="))
     = ["generated_image_1700000000.png"]
  /\ outcome (upload_to_r2 Examples.happy "aGk=")
     = Return "https://cdn.example.org/generated_image_1700000000.png".
Proof.
  split; [reflexivity|].
  destruct (C2_key_and_url_from_clock Examples.happy "aGk=" "images"
              "cdn.example.org" [x68; x69])
    as (Hkeys & _ & Hurl & _).
  - reflexivity.
  - reflexivity.
  - reflexivity.
  - split; [exact Hkeys|]. apply Hurl. reflexivity.
Defined.

(** Without the API key the process starts, and generation answers 500
    without calling out. *)
Lemma missing_api_key_at_first_use :
  environ Examples.no_api_key !! "FLUX_API_KEY" = None
  /\ (exists clients,
        lifespan Examples.libraries (environ Examples.no_api_key)
        = ([], Return clients))
  /\ (exists detail,
        generate_image Examples.no_api_key (PyStr "a cat")
        = ([CallGenerateImage (PyStr "a cat")],
           Raise (HTTPException 500 detail))).
Proof.
  split; [reflexivity|]. split; [eexists; reflexivity|].
  destruct (C6_missing_variable Examples.libraries Examples.no_api_key
              "FLUX_API_KEY")
    as [(Hs & _)|(_ & _ & [(_ & Hgen)|([He|He] & _)])].
  - simpl. tauto.
  - reflexivity.
  - exfalso. simpl in Hs. destruct Hs as [H|[H|[H|[]]]]; discriminate.
  - apply Hgen.
  - discriminate.
  - discriminate.
Defined.

(** The happy path satisfies the right-hand side of the equivalence, and
    so returns the success body. *)
Lemma both_steps_give_url :
  outcome (generate_endpoint Examples.happy Examples.cat)
  = Return (PyDict
      [("image_url",
        PyStr "https://cdn.example.org/generated_image_1700000000.png")]).
Proof.
  apply (proj1 (proj2 (C7_success_iff_both_steps Examples.happy
                         Examples.cat))).
  split; [reflexivity|].
  exists "aGk=", "https://cdn.example.org/generated_image_1700000000.png".
  repeat split.
Defined.

(** Text that is not padded base64 is never stored; a store that refuses
    the object is reported with its own message. *)
Lemma decode_and_store_failures :
  b64decode Examples.happy "aGk"
  = Raise (LibraryError "binascii.Error" "Incorrect padding")
  /\ put_object_invoked (trace (upload_to_r2 Examples.happy "aGk")) = false
  /\ outcome (upload_to_r2 Examples.store_down "aGk=")
     = Raise (HTTPException 500 "R2 upload failed: AccessDenied").
Proof.
  split; [reflexivity|]. split.
  - destruct (proj1 (C8_decode_or_store_failure Examples.happy "aGk")
                (LibraryError "binascii.Error" "Incorrect padding")
                eq_refl) as (_ & Hput & _).
    exact Hput.
  - apply (proj1 (proj2 (C8_decode_or_store_failure Examples.store_down
                             "aGk="))
             {| Bucket := "images";
                Key := "generated_image_1700000000.png";
                Body := [x68; x69];
                ContentType := "image/png" |}
             Examples.access_denied).
    + right. left. reflexivity.
    + reflexivity.
Defined.

(** What the caller reads when the API key is missing. *)
Lemma missing_key_detail_wrapped :
  post_generate Examples.no_api_key Examples.cat
  = {| reply_status := 500;
       reply_body := PyDict
         [("detail",
           PyStr ("Image generation error: " +:+
                  "500: FLUX_API_KEY environment variable not set"))] |}.
Proof.
  unfold post_generate.
  rewrite (proj1 (proj2 (proj2 (proj2 (proj2
             (C9_http_exceptions_rewrapped Examples.no_api_key))))
             Examples.cat eq_refl)
             (HTTPException 500
                ("Image generation error: " +:+
                 "500: FLUX_API_KEY environment variable not set"))).
  - reflexivity.
  - apply (proj1 (C9_http_exceptions_rewrapped Examples.no_api_key)
             (PyStr "a cat")).
    reflexivity.
Defined.

(* ===================================================================== *)
(** ** The runs of the two collaborators, exhaustively *)
(* ===================================================================== *)

Section Runs.
Local Arguments String.prefix : simpl never.
Local Arguments str_split : simpl never.

Variable w : World.

(** The two paths on which a method is looked up on a value that lacks
    it. *)
Lemma generate_image_no_get (prompt : pyval) (api_key : string)
    (response : Response) (body : pyval) :
  environ w !! "FLUX_API_KEY" = Some api_key ->
  http_post w (generation_request api_key prompt) = Return response ->
  is_success response = true ->
  json response = Return body ->
  (forall items, body <> PyDict items) ->
  generate_image w prompt
  = ([CallGenerateImage prompt;
      HttpPost (generation_request api_key prompt)],
     Raise (generation_failure w (no_attribute body "get"))).
Proof.
  intros Hkey Hpost Hok Hjson Hnot.
  unfold generate_image, environ_getitem.
  rewrite (environ_contains_Some _ _ _ Hkey), Hkey. simpl.
  rewrite Hpost. simpl.
  unfold raise_for_status. rewrite Hok. simpl. rewrite Hjson. simpl.
  destruct body; try reflexivity.
  exfalso. eapply Hnot. reflexivity.
Qed.

Lemma generate_image_no_startswith (prompt : pyval) (api_key : string)
    (response : Response) (items : list (string * pyval)) :
  environ w !! "FLUX_API_KEY" = Some api_key ->
  http_post w (generation_request api_key prompt) = Return response ->
  is_success response = true ->
  json response = Return (PyDict items) ->
  truthy (dict_get items "result") = true ->
  (forall s, dict_get items "result" <> PyStr s) ->
  generate_image w prompt
  = ([CallGenerateImage prompt;
      HttpPost (generation_request api_key prompt)],
     Raise (generation_failure w
              (no_attribute (dict_get items "result") "startswith"))).
Proof.
  intros Hkey Hpost Hok Hjson Ht Hnot.
  unfold generate_image, environ_getitem.
  rewrite (environ_contains_Some _ _ _ Hkey), Hkey. simpl.
  rewrite Hpost. simpl.
  unfold raise_for_status. rewrite Hok. simpl. rewrite Hjson. simpl.
  rewrite Ht. simpl.
  destruct (dict_get items "result") eqn:Hres; try reflexivity.
  exfalso. eapply Hnot. reflexivity.
Qed.

(** Every call of [generate_image] is one of the eight runs. *)
Lemma generate_image_run (prompt : pyval) :
  generation_run w prompt (generate_image w prompt).
Proof.
  destruct (environ w !! "FLUX_API_KEY") as [api_key|] eqn:Hkey.
  2:{ rewrite (generate_image_no_key _ _ Hkey). now apply run_no_key. }
  destruct (http_post w (generation_request api_key prompt))
    as [response|e] eqn:Hpost.
  2:{ rewrite (generate_image_post_raises _ _ _ Hkey e Hpost).
      now apply run_post_raises. }
  destruct (is_success response) eqn:Hok.
  2:{ rewrite (generate_image_status_error _ _ _ Hkey _ Hpost Hok).
      now apply run_status. }
  destruct (json response) as [body|e] eqn:Hjson.
  2:{ rewrite (generate_image_json_raises _ _ _ Hkey _ Hpost Hok e Hjson).
      now apply (run_json_raises w prompt api_key response e). }
  assert (Hbody : (exists items, body = PyDict items)
                  \/ forall items, body <> PyDict items).
  { destruct body; try (right; discriminate). left. eauto. }
  destruct Hbody as [[items ->]|Hnot].
  2:{ rewrite (generate_image_no_get _ _ _ _ Hkey Hpost Hok Hjson Hnot).
      now apply (run_no_get w prompt api_key response body). }
  destruct (truthy (dict_get items "result")) eqn:Ht.
  2:{ rewrite (generate_image_invalid_data _ _ _ _ _ Hkey Hpost Hok Hjson
                 (or_introl Ht)).
      apply (run_invalid_data w prompt api_key response items); auto. }
  assert (Hstr : (exists s, dict_get items "result" = PyStr s)
                 \/ forall s, dict_get items "result" <> PyStr s).
  { destruct (dict_get items "result"); try (right; discriminate).
    left. eauto. }
  destruct Hstr as [[data_url Hres]|Hnot].
  2:{ rewrite (generate_image_no_startswith _ _ _ _
                 Hkey Hpost Hok Hjson Ht Hnot).
      now apply (run_no_startswith w prompt api_key response items). }
  destruct (String.prefix data_url_prefix data_url) eqn:Hpre.
  2:{ rewrite (generate_image_invalid_data _ _ _ _ _ Hkey Hpost Hok Hjson
                 (or_intror (ex_intro _ data_url (conj Hres Hpre)))).
      apply (run_invalid_data w prompt api_key response items); eauto. }
  rewrite (generate_image_data_url _ _ _ Hkey _ Hpost Hok _ Hjson
             data_url Hres Hpre).
  rewrite str_split_second, (has_comma_prefixed _ Hpre).
  now apply (run_data_url w prompt api_key response items data_url).
Qed.

(** Every call of [upload_to_r2] is one of the five runs. *)
Lemma upload_to_r2_run (image_data : string) :
  upload_run w image_data (upload_to_r2 w image_data).
Proof.
  destruct (environ w !! "R2_BUCKET_NAME") as [bucket|] eqn:Hb.
  2:{ rewrite (upload_no_bucket _ _ Hb). now apply run_no_bucket. }
  destruct (environ w !! "R2_PUBLIC_DOMAIN") as [domain|] eqn:Hd.
  2:{ rewrite (upload_no_domain _ _ _ Hb Hd).
      now apply (run_no_domain w image_data bucket). }
  destruct (b64decode w image_data) as [image_bytes|e] eqn:Hdec.
  2:{ rewrite (upload_decode_raises _ _ _ Hb _ Hd e Hdec).
      now apply (run_decode_raises w image_data bucket domain). }
  destruct (s3_put_object w (store_args w bucket image_bytes))
    as [[]|e] eqn:Hput.
  - rewrite (upload_stored _ _ _ Hb _ Hd _ Hdec Hput).
    now apply (run_stored w image_data bucket domain image_bytes).
  - rewrite (upload_put_raises _ _ _ Hb _ Hd _ Hdec e Hput).
    now apply (run_put_raises w image_data bucket domain image_bytes).
Qed.

End Runs.

(** Every call of [generate_endpoint] is one of the four runs. *)
Lemma generate_endpoint_run (w : World) (payload : list (string * pyval)) :
  endpoint_run w payload (generate_endpoint w payload).
Proof.
  destruct (truthy (dict_get payload "prompt")) eqn:Ht.
  2:{ rewrite (generate_endpoint_falsy _ _ Ht). now apply run_rejected. }
  rewrite (generate_endpoint_truthy _ _ Ht).
  pose proof (generate_image_run w (dict_get payload "prompt")) as G.
  destruct (generate_image w (dict_get payload "prompt")) as [tr1 [d|e]].
  2:{ now apply run_generation_failed. }
  pose proof (upload_to_r2_run w d) as U.
  destruct (upload_to_r2 w d) as [tr2 [url|e]].
  - now apply (run_success w payload tr1 d tr2 url).
  - now apply (run_upload_failed w payload tr1 d tr2 e).
Qed.

(** The runs of a function determine what it did: a run relation holds
    of the call's own result only. *)
Lemma generation_run_trace (w : World) (prompt : pyval) (m : M string) :
  generation_run w prompt m ->
  trace m = [CallGenerateImage prompt]
  \/ exists api_key,
       environ w !! "FLUX_API_KEY" = Some api_key
       /\ trace m = [CallGenerateImage prompt;
                     HttpPost (generation_request api_key prompt)].
Proof. intros R. destruct R; simpl; eauto. Qed.

Lemma upload_run_trace (w : World) (image_data : string) (m : M string) :
  upload_run w image_data m ->
  trace m = [CallUploadToR2 image_data]
  \/ exists bucket image_bytes,
       environ w !! "R2_BUCKET_NAME" = Some bucket
       /\ b64decode w image_data = Return image_bytes
       /\ trace m = [CallUploadToR2 image_data;
                     PutObject (store_args w bucket image_bytes)].
Proof. intros R. destruct R; simpl; eauto 6. Qed.

(** A run relation holds of the call's own result only. *)
Lemma generation_run_sound (w : World) (prompt : pyval) (m : M string) :
  generation_run w prompt m -> generate_image w prompt = m.
Proof.
  intros R.
  destruct R as [Hk|k e Hk Hp|k r Hk Hp Hok|k r e Hk Hp Hok Hj
                |k r body Hk Hp Hok Hj Hnot|k r items Hk Hp Hok Hj Hbad
                |k r items Hk Hp Hok Hj Ht Hnot
                |k r items u Hk Hp Hok Hj Hr Hpre].
  - exact (generate_image_no_key _ _ Hk).
  - exact (generate_image_post_raises _ _ _ Hk e Hp).
  - exact (generate_image_status_error _ _ _ Hk _ Hp Hok).
  - exact (generate_image_json_raises _ _ _ Hk _ Hp Hok e Hj).
  - exact (generate_image_no_get _ _ _ _ _ Hk Hp Hok Hj Hnot).
  - exact (generate_image_invalid_data _ _ _ _ _ Hk Hp Hok Hj Hbad).
  - exact (generate_image_no_startswith _ _ _ _ _ Hk Hp Hok Hj Ht Hnot).
  - rewrite (generate_image_data_url _ _ _ Hk _ Hp Hok _ Hj u Hr Hpre).
    now rewrite str_split_second, (has_comma_prefixed _ Hpre).
Qed.

Lemma upload_run_sound (w : World) (image_data : string) (m : M string) :
  upload_run w image_data m -> upload_to_r2 w image_data = m.
Proof.
  intros R.
  destruct R as [Hb|b Hb Hd|b d e Hb Hd He|b d bytes e Hb Hd Hdec Hput
                |b d bytes Hb Hd Hdec Hput].
  - exact (upload_no_bucket _ _ Hb).
  - exact (upload_no_domain _ _ _ Hb Hd).
  - exact (upload_decode_raises _ _ _ Hb _ Hd e He).
  - exact (upload_put_raises _ _ _ Hb _ Hd _ Hdec e Hput).
  - exact (upload_stored _ _ _ Hb _ Hd _ Hdec Hput).
Qed.

(** A generation run that returns made the outbound call. *)
Lemma generation_run_returns (w : World) (prompt : pyval)
    (tr : list event) (image_data : string) :
  generation_run w prompt (tr, Return image_data) ->
  exists api_key response items data_url,
    environ w !! "FLUX_API_KEY" = Some api_key
    /\ http_post w (generation_request api_key prompt) = Return response
    /\ is_success response = true
    /\ json response = Return (PyDict items)
    /\ dict_get items "result" = PyStr data_url
    /\ String.prefix data_url_prefix data_url = true
    /\ image_data = up_to_comma (after_first_comma data_url)
    /\ tr = [CallGenerateImage prompt;
             HttpPost (generation_request api_key prompt)].
Proof.
  intros R. inversion R; subst.
  exists api_key, response, items, data_url. repeat split; assumption.
Qed.

(** An upload run that returns stored the object. *)
Lemma upload_run_returns (w : World) (image_data : string)
    (tr : list event) (image_url : string) :
  upload_run w image_data (tr, Return image_url) ->
  exists bucket domain image_bytes,
    environ w !! "R2_BUCKET_NAME" = Some bucket
    /\ environ w !! "R2_PUBLIC_DOMAIN" = Some domain
    /\ b64decode w image_data = Return image_bytes
    /\ s3_put_object w (store_args w bucket image_bytes) = Return tt
    /\ image_url = "https://" +:+ domain +:+ "/" +:+ key_at (time_time w)
    /\ tr = [CallUploadToR2 image_data;
             PutObject (store_args w bucket image_bytes)].
Proof.
  intros R. inversion R; subst.
  exists bucket, domain, image_bytes. repeat split; assumption.
Qed.

(** What a failed generation run raised. *)
Lemma generation_run_raises (w : World) (prompt : pyval)
    (tr : list event) (e : exn) :
  generation_run w prompt (tr, Raise e) ->
  exists cause, e = generation_failure w cause.
Proof.
  intros R. remember (tr, Raise e) as m eqn:Em.
  destruct R; try discriminate;
    match type of Em with
    | (_, Raise (generation_failure w ?c)) = _ => exists c
    end; congruence.
Qed.

Lemma upload_run_raises (w : World) (image_data : string)
    (tr : list event) (e : exn) :
  upload_run w image_data (tr, Raise e) ->
  exists cause, e = upload_failure w cause.
Proof.
  intros R. remember (tr, Raise e) as m eqn:Em.
  destruct R; try discriminate;
    match type of Em with
    | (_, Raise (upload_failure w ?c)) = _ => exists c
    end; congruence.
Qed.

(* ===================================================================== *)
(** ** Further properties of the request path *)
(* ===================================================================== *)

(** X1: a request performs its calls once each and in a fixed order:
    [generate_image], the post to the generation API, [upload_to_r2], the
    store's [put_object].  The trace of a run is an initial part of that
    sequence; nothing is retried and nothing is called out of turn. *)
Theorem calls_once_and_in_order
    (w : World) (payload : list (string * pyval)) :
  let prompt := dict_get payload "prompt" in
  let run := trace (generate_endpoint w payload) in
  run = []
  \/ run = [CallGenerateImage prompt]
  \/ (exists api_key,
        run = [CallGenerateImage prompt;
               HttpPost (generation_request api_key prompt)])
  \/ (exists api_key image_data,
        run = [CallGenerateImage prompt;
               HttpPost (generation_request api_key prompt);
               CallUploadToR2 image_data])
  \/ (exists api_key image_data bucket image_bytes,
        run = [CallGenerateImage prompt;
               HttpPost (generation_request api_key prompt);
               CallUploadToR2 image_data;
               PutObject (store_args w bucket image_bytes)]).
Proof.
  intros prompt run. subst run.
  pose proof (generate_endpoint_run w payload) as R.
  remember (generate_endpoint w payload) as m eqn:Em. clear Em.
  destruct R as [Hf|tr e Ht G|tr1 d tr2 e Ht G U|tr1 d tr2 url Ht G U].
  - now left.
  - destruct (generation_run_trace _ _ _ G) as [E|(k & _ & E)];
      simpl in *; subst tr; fold prompt; eauto.
  - destruct (generation_run_returns _ _ _ _ G)
      as (k & r & i & u & Hk & Hp & Hok & Hj & Hr & Hpre & Hd & ->).
    destruct (upload_run_trace _ _ _ U) as [E|(b & bytes & _ & _ & E)];
      simpl in *; subst tr2; fold prompt.
    + right. right. right. left. eauto.
    + right. right. right. right. eauto 6.
  - destruct (generation_run_returns _ _ _ _ G)
      as (k & r & i & u & Hk & Hp & Hok & Hj & Hr & Hpre & Hd & ->).
    destruct (upload_run_returns _ _ _ _ U)
      as (b & dom & bytes & Hb & Hdom & Hdec & Hput & Hurl & ->).
    fold prompt. right. right. right. right. simpl. eauto 6.
Qed.

(** X2: when the post to the generation API raises anything but an
    [HTTPStatusError] or a [JSONDecodeError] (a timeout, a refused
    connection), the request fails with status 500 and detail
    "Image generation error: " followed by the text of the exception;
    the uploader is not entered. *)
Theorem transport_failure_is_500
    (w : World) (payload : list (string * pyval))
    (api_key : string) (e : exn) :
  truthy (dict_get payload "prompt") = true ->
  environ w !! "FLUX_API_KEY" = Some api_key ->
  http_post w (generation_request api_key (dict_get payload "prompt"))
  = Raise e ->
  (forall status, e <> HTTPStatusError status) ->
  (forall msg, e <> JSONDecodeError msg) ->
  generate_endpoint w payload
  = ([CallGenerateImage (dict_get payload "prompt");
      HttpPost (generation_request api_key (dict_get payload "prompt"))],
     Raise (HTTPException 500
              ("Image generation error: " +:+ py_str w e))).
Proof.
  intros Ht Hkey Hpost Hs Hj.
  apply (generate_endpoint_generation_failed _ _ _ _ _ Ht).
  rewrite (generate_image_post_raises _ _ _ Hkey e Hpost).
  destruct e; try reflexivity.
  - exfalso. eapply Hs. reflexivity.
  - exfalso. eapply Hj. reflexivity.
Qed.

(** X3: when the generation API answers 2xx with a body that does not
    parse ([response.json()] raises [JSONDecodeError]), the request fails
    with status 500 and the fixed detail "Invalid API response format";
    the parser's own message is not passed on, and the uploader is not
    entered. *)
Theorem unparsable_body_is_500
    (w : World) (payload : list (string * pyval))
    (api_key : string) (response : Response) (msg : string) :
  truthy (dict_get payload "prompt") = true ->
  environ w !! "FLUX_API_KEY" = Some api_key ->
  http_post w (generation_request api_key (dict_get payload "prompt"))
  = Return response ->
  200 <= status_code response <= 299 ->
  json response = Raise (JSONDecodeError msg) ->
  generate_endpoint w payload
  = ([CallGenerateImage (dict_get payload "prompt");
      HttpPost (generation_request api_key (dict_get payload "prompt"))],
     Raise (HTTPException 500 "Invalid API response format")).
Proof.
  intros Ht Hkey Hpost Hst Hjson. apply is_success_range in Hst.
  apply (generate_endpoint_generation_failed _ _ _ _ _ Ht).
  now rewrite (generate_image_json_raises _ _ _ Hkey _ Hpost Hst _ Hjson).
Qed.

(** X4: the request sent to the generation API is fixed but for the
    prompt and the key: whatever the payload holds, the URL, the 30
    second timeout, the model, size, lora and style fields and the two
    headers are the same, the [prompt] field is the payload's prompt and
    the authorization header is "Bearer " followed by FLUX_API_KEY. *)
Theorem outbound_request_fixed
    (w : World) (payload : list (string * pyval)) (req : PostRequest) :
  In (HttpPost req) (trace (generate_endpoint w payload)) ->
  exists api_key,
    environ w !! "FLUX_API_KEY" = Some api_key
    /\ url req = "https://api.freeflux.ai/v1/images/generate"
    /\ timeout req = 30%Q
    /\ headers req = [("accept", "application/json");
                      ("authorization", "Bearer " +:+ api_key)]
    /\ files req = [("prompt", (None, dict_get payload "prompt"));
                    ("model", (None, PyStr "flux_1_schnell"));
                    ("size", (None, PyStr "16_9"));
                    ("lora", (None, PyStr ""));
                    ("style", (None, PyStr "no_style"))].
Proof.
  intros Hin.
  assert (Hgen : forall tr r,
    generation_run w (dict_get payload "prompt") (tr, r) ->
    In (HttpPost req) tr ->
    exists api_key,
      environ w !! "FLUX_API_KEY" = Some api_key
      /\ req = generation_request api_key (dict_get payload "prompt")).
  { intros tr r G Hreq.
    destruct (generation_run_trace _ _ _ G) as [E|(k & Hk & E)];
      simpl in E; subst tr.
    - destruct Hreq as [[=]|[]].
    - destruct Hreq as [[=]|[[= <-]|[]]]. eauto. }
  assert (Hup : forall d tr r,
    upload_run w d (tr, r) -> ~ In (HttpPost req) tr).
  { intros d tr r U Hreq.
    destruct (upload_run_trace _ _ _ U) as [E|(b & bytes & _ & _ & E)];
      simpl in E; subst tr.
    - destruct Hreq as [[=]|[]].
    - destruct Hreq as [[=]|[[=]|[]]]. }
  pose proof (generate_endpoint_run w payload) as R.
  remember (generate_endpoint w payload) as m eqn:Em. clear Em.
  assert (Hreq : exists api_key,
    environ w !! "FLUX_API_KEY" = Some api_key
    /\ req = generation_request api_key (dict_get payload "prompt")).
  { destruct R as [Hf|tr e Ht G|tr1 d tr2 e Ht G U|tr1 d tr2 url Ht G U];
      simpl in Hin.
    - destruct Hin.
    - eauto.
    - apply in_app_or in Hin as [Hin|Hin]; [eauto|].
      destruct (Hup _ _ _ U Hin).
    - apply in_app_or in Hin as [Hin|Hin]; [eauto|].
      destruct (Hup _ _ _ U Hin). }
  destruct Hreq as (api_key & Hkey & ->).
  exists api_key. repeat split. exact Hkey.
Qed.

(** X5: whatever a request hands to the store is the decoding of the
    text [generate_image] returned, under the clock's key, in the bucket
    named by R2_BUCKET_NAME, with content type image/png. *)
Theorem stored_object_is_decoded_image
    (w : World) (payload : list (string * pyval)) (args : PutObjectArgs) :
  In (PutObject args) (trace (generate_endpoint w payload)) ->
  exists image_data,
    outcome (generate_image w (dict_get payload "prompt"))
    = Return image_data
    /\ b64decode w image_data = Return (Body args)
    /\ environ w !! "R2_BUCKET_NAME" = Some (Bucket args)
    /\ Key args
       = "generated_image_" +:+ pretty (int_of_float (time_time w))
         +:+ ".png"
    /\ ContentType args = "image/png".
Proof.
  intros Hin.
  assert (Hgen : forall tr r,
    generation_run w (dict_get payload "prompt") (tr, r) ->
    ~ In (PutObject args) tr).
  { intros tr r G Hput.
    destruct (generation_run_trace _ _ _ G) as [E|(k & Hk & E)];
      simpl in E; subst tr.
    - destruct Hput as [[=]|[]].
    - destruct Hput as [[=]|[[=]|[]]]. }
  assert (Hup : forall d tr r,
    upload_run w d (tr, r) -> In (PutObject args) tr ->
    b64decode w d = Return (Body args)
    /\ environ w !! "R2_BUCKET_NAME" = Some (Bucket args)
    /\ Key args = key_at (time_time w)
    /\ ContentType args = "image/png").
  { intros d tr r U Hput.
    destruct (upload_run_trace _ _ _ U) as [E|(b & bytes & Hb & Hd & E)];
      simpl in E; subst tr.
    - destruct Hput as [[=]|[]].
    - destruct Hput as [[=]|[[= <-]|[]]]. simpl. auto. }
  pose proof (generate_endpoint_run w payload) as R.
  remember (generate_endpoint w payload) as m eqn:Em. clear Em.
  destruct R as [Hf|tr e Ht G|tr1 d tr2 e Ht G U|tr1 d tr2 url Ht G U];
    simpl in Hin.
  - destruct Hin.
  - destruct (Hgen _ _ G Hin).
  - apply in_app_or in Hin as [Hin|Hin]; [destruct (Hgen _ _ G Hin)|].
    exists d. rewrite (generation_run_sound _ _ _ G).
    split; [reflexivity|exact (Hup _ _ _ U Hin)].
  - apply in_app_or in Hin as [Hin|Hin]; [destruct (Hgen _ _ G Hin)|].
    exists d. rewrite (generation_run_sound _ _ _ G).
    split; [reflexivity|exact (Hup _ _ _ U Hin)].
Qed.

(** X6: [generate_image] returns in one situation only: the key is
    configured, the API answered 2xx with a JSON object whose [result] is
    a string starting with the data URL prefix; what it returns is then
    the text between the first comma and the next. *)
Theorem generate_image_returns_iff
    (w : World) (prompt : pyval) (image_data : string) :
  outcome (generate_image w prompt) = Return image_data <->
  exists api_key response items data_url,
    environ w !! "FLUX_API_KEY" = Some api_key
    /\ http_post w (generation_request api_key prompt) = Return response
    /\ 200 <= status_code response <= 299
    /\ json response = Return (PyDict items)
    /\ dict_get items "result" = PyStr data_url
    /\ String.prefix data_url_prefix data_url = true
    /\ image_data = up_to_comma (after_first_comma data_url).
Proof.
  split.
  - intros Hout.
    pose proof (generate_image_run w prompt) as G.
    destruct (generate_image w prompt) as [tr r]. simpl in Hout. subst r.
    destruct (generation_run_returns _ _ _ _ G)
      as (k & r & i & u & Hk & Hp & Hok & Hj & Hr & Hpre & Hd & _).
    exists k, r, i, u. apply is_success_range in Hok. auto 10.
  - intros (k & r & i & u & Hk & Hp & Hok & Hj & Hr & Hpre & ->).
    apply is_success_range in Hok.
    now rewrite (generation_run_sound _ _ _
                   (run_data_url w prompt k r i u Hk Hp Hok Hj Hr Hpre)).
Qed.

(** X7: [upload_to_r2] returns in one situation only: bucket and public
    domain are configured, the text decodes and the store accepts the
    object; what it returns is then the public URL of the clock's key. *)
Theorem upload_to_r2_returns_iff
    (w : World) (image_data image_url : string) :
  outcome (upload_to_r2 w image_data) = Return image_url <->
  exists bucket domain image_bytes,
    environ w !! "R2_BUCKET_NAME" = Some bucket
    /\ environ w !! "R2_PUBLIC_DOMAIN" = Some domain
    /\ b64decode w image_data = Return image_bytes
    /\ s3_put_object w {| Bucket := bucket;
                          Key := "generated_image_"
                                 +:+ pretty (int_of_float (time_time w))
                                 +:+ ".png";
                          Body := image_bytes;
                          ContentType := "image/png" |} = Return tt
    /\ image_url
       = "https://" +:+ domain +:+ "/generated_image_"
         +:+ pretty (int_of_float (time_time w)) +:+ ".png".
Proof.
  split.
  - intros Hout.
    pose proof (upload_to_r2_run w image_data) as U.
    destruct (upload_to_r2 w image_data) as [tr r]. simpl in Hout. subst r.
    destruct (upload_run_returns _ _ _ _ U)
      as (b & d & bytes & Hb & Hd & Hdec & Hput & Hurl & _).
    exists b, d, bytes. auto 10.
  - intros (b & d & bytes & Hb & Hd & Hdec & Hput & ->).
    now rewrite (upload_stored _ _ _ Hb _ Hd _ Hdec Hput).
Qed.

(** X8: end to end.  A truthy prompt, the key configured, a 2xx answer
    whose [result] is a prefixed data URL, a payload that decodes, bucket
    and domain configured and a store that accepts: the endpoint makes
    the four calls and answers 200 with
    [{"image_url": "https://<domain>/generated_image_<int(t)>.png"}]. *)
Theorem request_succeeds
    (w : World) (payload : list (string * pyval))
    (api_key : string) (response : Response)
    (items : list (string * pyval)) (data_url : string)
    (bucket domain : string) (image_bytes : list byte) :
  truthy (dict_get payload "prompt") = true ->
  environ w !! "FLUX_API_KEY" = Some api_key ->
  http_post w (generation_request api_key (dict_get payload "prompt"))
  = Return response ->
  200 <= status_code response <= 299 ->
  json response = Return (PyDict items) ->
  dict_get items "result" = PyStr data_url ->
  String.prefix data_url_prefix data_url = true ->
  environ w !! "R2_BUCKET_NAME" = Some bucket ->
  environ w !! "R2_PUBLIC_DOMAIN" = Some domain ->
  b64decode w (up_to_comma (after_first_comma data_url))
  = Return image_bytes ->
  s3_put_object w (store_args w bucket image_bytes) = Return tt ->
  trace (generate_endpoint w payload)
  = [CallGenerateImage (dict_get payload "prompt");
     HttpPost (generation_request api_key (dict_get payload "prompt"));
     CallUploadToR2 (up_to_comma (after_first_comma data_url));
     PutObject (store_args w bucket image_bytes)]
  /\ post_generate w payload
     = {| reply_status := 200;
          reply_body :=
            PyDict [("image_url",
                     PyStr ("https://" +:+ domain +:+ "/generated_image_"
                            +:+ pretty (int_of_float (time_time w))
                            +:+ ".png"))] |}.
Proof.
  intros Ht Hk Hp Hok Hj Hr Hpre Hb Hd Hdec Hput.
  apply is_success_range in Hok.
  unfold post_generate. rewrite (generate_endpoint_truthy _ _ Ht).
  rewrite (generation_run_sound _ _ _
             (run_data_url w _ api_key response items data_url
                Hk Hp Hok Hj Hr Hpre)).
  rewrite (upload_stored _ _ _ Hb _ Hd _ Hdec Hput).
  split; reflexivity.
Qed.

(** X9: a success body always names an object that was stored: when the
    endpoint returns, its body is
    [{"image_url": "https://<R2_PUBLIC_DOMAIN>/<key>"}], the run called
    the store's [put_object] once, under that [<key>], the clock's, and
    that call returned without raising. *)
Theorem success_names_stored_object
    (w : World) (payload : list (string * pyval)) (body : pyval) :
  outcome (generate_endpoint w payload) = Return body ->
  exists domain args,
    environ w !! "R2_PUBLIC_DOMAIN" = Some domain
    /\ body = PyDict [("image_url",
                       PyStr ("https://" +:+ domain +:+ "/"
                              +:+ key_at (time_time w)))]
    /\ In (PutObject args) (trace (generate_endpoint w payload))
    /\ Key args = key_at (time_time w)
    /\ s3_put_object w args = Return tt
    /\ put_keys (trace (generate_endpoint w payload))
       = [key_at (time_time w)].
Proof.
  intros Hout.
  pose proof (generate_endpoint_run w payload) as R.
  destruct (generate_endpoint w payload) as [tr r]. simpl in Hout. subst r.
  inversion R as [| | |tr1 d tr2 url Ht G U]; subst.
  destruct (generation_run_returns _ _ _ _ G)
    as (k & r & i & u & Hk & Hp & Hok & Hj & Hr & Hpre & Hd & ->).
  destruct (upload_run_returns _ _ _ _ U)
    as (b & dom & bytes & Hb & Hdom & Hdec & Hput & -> & ->).
  exists dom, (store_args w b bytes).
  split; [exact Hdom|]. split; [reflexivity|].
  split; [simpl; auto|].
  split; [reflexivity|]. split; [exact Hput|reflexivity].
Qed.

(* ===================================================================== *)
(** ** What a failed request tells the caller *)
(* ===================================================================== *)

(** The exceptions the two handlers of the collaborators produce. *)
Lemma generation_failure_forms (w : World) (cause : exn) :
  (exists status,
     generation_failure w cause
     = HTTPException status
         ("Image generation failed: " +:+ py_str w (HTTPStatusError status)))
  \/ generation_failure w cause
     = HTTPException 500 "Invalid API response format"
  \/ generation_failure w cause
     = HTTPException 500 ("Image generation error: " +:+ py_str w cause).
Proof. destruct cause; simpl; eauto. Qed.

(** What the endpoint raises, by run. *)
Lemma endpoint_failure_forms
    (w : World) (payload : list (string * pyval)) (e : exn) :
  outcome (generate_endpoint w payload) = Raise e ->
  (truthy (dict_get payload "prompt") = false
   /\ e = HTTPException 400 "Prompt is required")
  \/ (truthy (dict_get payload "prompt") = true
      /\ ((exists cause, e = generation_failure w cause)
          \/ (exists cause, e = upload_failure w cause))).
Proof.
  intros Hout.
  pose proof (generate_endpoint_run w payload) as R.
  destruct (generate_endpoint w payload) as [tr r]. simpl in Hout. subst r.
  inversion R as [Hf|tr0 e0 Ht G|tr1 d tr2 e0 Ht G U|]; subst.
  - left. auto.
  - right. split; [exact Ht|]. left.
    exact (generation_run_raises _ _ _ _ G).
  - right. split; [exact Ht|]. right.
    exact (upload_run_raises _ _ _ _ U).
Qed.

(** X10: every failure of the endpoint is an [HTTPException] raised by
    the validation or by a handler of one of the two collaborators, in
    one of five forms; the endpoint's own catch-all, whose detail would
    start with "Internal server error: ", never produces the reply. *)
Theorem failures_are_wrapped
    (w : World) (payload : list (string * pyval)) (e : exn) :
  outcome (generate_endpoint w payload) = Raise e ->
  (e = HTTPException 400 "Prompt is required"
   \/ (exists status,
         e = HTTPException status
               ("Image generation failed: " +:+
                py_str w (HTTPStatusError status)))
   \/ e = HTTPException 500 "Invalid API response format"
   \/ (exists cause,
         e = HTTPException 500
               ("Image generation error: " +:+ py_str w cause))
   \/ (exists cause,
         e = HTTPException 500 ("R2 upload failed: " +:+ py_str w cause)))
  /\ forall status text,
       e <> HTTPException status ("Internal server error: " +:+ text).
Proof.
  intros Hout.
  destruct (endpoint_failure_forms _ _ _ Hout)
    as [[_ ->]|[_ [[cause ->]|[cause ->]]]].
  - split; [now left|]. intros status text. discriminate.
  - destruct (generation_failure_forms w cause) as [[s E]|[E|E]];
      rewrite E; (split; [|intros status text; discriminate]).
    + right. left. eauto.
    + right. right. now left.
    + right. right. right. left. eauto.
  - split; [|intros status text; discriminate].
    right. right. right. right. exists cause. reflexivity.
Qed.

(** X11: the reply carries the detail "Prompt is required" exactly when
    the payload's [prompt] is falsy; no failure further down produces
    that detail. *)
Theorem prompt_required_iff_falsy
    (w : World) (payload : list (string * pyval)) :
  reply_body (post_generate w payload)
  = PyDict [("detail", PyStr "Prompt is required")]
  <-> truthy (dict_get payload "prompt") = false.
Proof.
  split.
  - unfold post_generate. intros Hbody.
    destruct (outcome (generate_endpoint w payload)) as [body|e] eqn:Hout.
    + exfalso.
      pose proof (generate_endpoint_run w payload) as R.
      destruct (generate_endpoint w payload) as [tr r].
      simpl in Hout. subst r.
      inversion R; subst. simpl in Hbody. discriminate.
    + destruct (endpoint_failure_forms _ _ _ Hout)
        as [[Hf _]|[_ [[cause ->]|[cause ->]]]]; [exact Hf|exfalso..].
      * destruct (generation_failure_forms w cause) as [[s E]|[E|E]];
          rewrite E in Hbody; simpl in Hbody; discriminate.
      * simpl in Hbody. discriminate.
  - intros Hf. unfold post_generate.
    now rewrite (generate_endpoint_falsy _ _ Hf).
Qed.

(** Only a falsy prompt is answered with "Prompt is required". *)
Lemma prompt_required_reply_falsy
    (w : World) (payload : list (string * pyval)) :
  reply_body (post_generate w payload)
  = PyDict [("detail", PyStr "Prompt is required")] ->
  truthy (dict_get payload "prompt") = false.
Proof.
  unfold post_generate. intros Hbody.
  destruct (outcome (generate_endpoint w payload)) as [body|e] eqn:Hout.
  - exfalso.
    pose proof (generate_endpoint_run w payload) as R.
    destruct (generate_endpoint w payload) as [tr r].
    simpl in Hout. subst r.
    inversion R; subst. simpl in Hbody. discriminate.
  - destruct (endpoint_failure_forms _ _ _ Hout)
      as [[Hf _]|[_ [[cause ->]|[cause ->]]]]; [exact Hf|exfalso..].
    + destruct (generation_failure_forms w cause) as [[s E]|[E|E]];
        rewrite E in Hbody; simpl in Hbody; discriminate.
    + simpl in Hbody. discriminate.
Qed.

Lemma whitespace_only_nonempty (s : string) :
  whitespace_only s = true -> s <> "".
Proof. destruct s; [discriminate|]. intros _. discriminate. Qed.

(** C10: the validation looks at truthiness only, not at the type or at
    the characters.  A [prompt] that is a truthy value of any type other
    than string, or a string of one or more characters whatever they are
    (blanks, tabs, no-break spaces: a whitespace-only string is one of
    these), does not take the 400 branch: the reply is not "Prompt is
    required", under any status; [generate_image] is entered with
    exactly that value, and once the API key is configured the value is
    the [prompt] field of the outbound request. *)
Theorem C10_truthy_prompt_forwarded
    (w : World) (payload : list (string * pyval)) :
  (truthy (dict_get payload "prompt") = true
   /\ forall s, dict_get payload "prompt" <> PyStr s)
  \/ (exists s, dict_get payload "prompt" = PyStr s /\ s <> "") ->
  (forall status,
     outcome (generate_endpoint w payload)
     <> Raise (HTTPException status "Prompt is required"))
  /\ reply_body (post_generate w payload)
     <> PyDict [("detail", PyStr "Prompt is required")]
  /\ (exists tr, trace (generate_endpoint w payload)
                 = CallGenerateImage (dict_get payload "prompt") :: tr)
  /\ (forall api_key, environ w !! "FLUX_API_KEY" = Some api_key ->
      In ("prompt", (None, dict_get payload "prompt"))
         (files (generation_request api_key (dict_get payload "prompt")))
      /\ exists tr, trace (generate_endpoint w payload)
           = CallGenerateImage (dict_get payload "prompt")
             :: HttpPost (generation_request api_key
                            (dict_get payload "prompt"))
             :: tr).
Proof.
  intros H.
  assert (Ht : truthy (dict_get payload "prompt") = true).
  { destruct H as [[Ht _]|(s & -> & Hs)]; [exact Ht|].
    destruct s; [contradiction|reflexivity]. }
  clear H.
  assert (Hbody : reply_body (post_generate w payload)
                  <> PyDict [("detail", PyStr "Prompt is required")]).
  { intros Hb. apply prompt_required_reply_falsy in Hb. congruence. }
  split.
  { intros status Hout. apply Hbody. unfold post_generate.
    now rewrite Hout. }
  split; [exact Hbody|]. clear Hbody.
  rewrite (generate_endpoint_truthy _ _ Ht).
  set (prompt := dict_get payload "prompt").
  destruct (generate_image_shape w prompt) as (tr & r & E & Htr & _).
  assert (Hhead : exists tr',
    trace match generate_image w prompt with
          | (tr1, Raise e) => (tr1, Raise e)
          | (tr1, Return base64_image) =>
              match upload_to_r2 w base64_image with
              | (tr2, Raise e) => (tr1 ++ tr2, Raise e)
              | (tr2, Return image_url) =>
                  (tr1 ++ tr2,
                   Return (PyDict [("image_url", PyStr image_url)]))
              end
          end = CallGenerateImage prompt :: tr ++ tr').
  { rewrite E. destruct r as [d|e].
    - destruct (upload_to_r2 w d) as [tr2 [url|e]]; exists tr2; reflexivity.
    - exists []. simpl. now rewrite app_nil_r. }
  destruct Hhead as (tr' & Hhead).
  split.
  - eauto.
  - intros api_key Hkey. split; [now left|].
    rewrite Hhead.
    rewrite (generate_image_posts _ _ _ Hkey _ _ E).
    simpl. eauto.
Qed.

(** A number, a run of blanks and a no-break space all reach the
    generation client, and none is answered "Prompt is required". *)
Lemma odd_prompts_forwarded :
  (truthy (PyInt 7) = true /\ whitespace_only "   " = true
   /\ whitespace_only Scenarios.nbsp = false /\ Scenarios.nbsp <> "")
  /\ (exists tr, trace (generate_endpoint Examples.happy
                          Examples.number_prompt)
                 = CallGenerateImage (PyInt 7) :: tr)
  /\ (exists tr, trace (generate_endpoint Examples.happy
                          Examples.blank_prompt)
                 = CallGenerateImage (PyStr "   ") :: tr)
  /\ (exists tr, trace (generate_endpoint Examples.throttled
                          Scenarios.nbsp_prompt)
                 = CallGenerateImage (PyStr Scenarios.nbsp) :: tr)
  /\ reply_body (post_generate Examples.throttled Scenarios.nbsp_prompt)
     <> PyDict [("detail", PyStr "Prompt is required")].
Proof.
  split.
  { repeat split. discriminate. }
  split; [|split; [|split]].
  - apply (C10_truthy_prompt_forwarded Examples.happy
             Examples.number_prompt).
    left. split; [reflexivity|]. intros s. discriminate.
  - apply (C10_truthy_prompt_forwarded Examples.happy
             Examples.blank_prompt).
    right. exists "   ". split; [reflexivity|].
    apply whitespace_only_nonempty. reflexivity.
  - apply (C10_truthy_prompt_forwarded Examples.throttled
             Scenarios.nbsp_prompt).
    right. exists Scenarios.nbsp. split; [reflexivity|discriminate].
  - apply (C10_truthy_prompt_forwarded Examples.throttled
             Scenarios.nbsp_prompt).
    right. exists Scenarios.nbsp. split; [reflexivity|discriminate].
Defined.

(** X12: a 2xx answer of the wrong shape is reported as an attribute
    error, not as "Invalid image data response": a body that is not a
    JSON object fails on [.get], a truthy [result] that is not a string
    fails on [.startswith]; either way the reply is a 500 whose detail is
    "Image generation error: " followed by the text of that error. *)
Theorem wrong_shape_is_attribute_error
    (w : World) (payload : list (string * pyval))
    (api_key : string) (response : Response) (body : pyval) :
  truthy (dict_get payload "prompt") = true ->
  environ w !! "FLUX_API_KEY" = Some api_key ->
  http_post w (generation_request api_key (dict_get payload "prompt"))
  = Return response ->
  200 <= status_code response <= 299 ->
  json response = Return body ->
  ((forall items, body <> PyDict items) ->
   outcome (generate_endpoint w payload)
   = Raise (HTTPException 500
       ("Image generation error: " +:+
        py_str w (AttributeError
          ("'" +:+ type_name body
           +:+ "' object has no attribute 'get'")))))
  /\ (forall items,
        body = PyDict items ->
        truthy (dict_get items "result") = true ->
        (forall s, dict_get items "result" <> PyStr s) ->
        outcome (generate_endpoint w payload)
        = Raise (HTTPException 500
            ("Image generation error: " +:+
             py_str w (AttributeError
               ("'" +:+ type_name (dict_get items "result")
                +:+ "' object has no attribute 'startswith'"))))).
Proof.
  intros Ht Hk Hp Hok Hj. apply is_success_range in Hok. split.
  - intros Hnot.
    now rewrite (generate_endpoint_generation_failed _ _ _ _ _ Ht
                   (generate_image_no_get _ _ _ _ _ Hk Hp Hok Hj Hnot)).
  - intros items -> Hres Hnot.
    now rewrite (generate_endpoint_generation_failed _ _ _ _ _ Ht
                   (generate_image_no_startswith _ _ _ _ _
                      Hk Hp Hok Hj Hres Hnot)).
Qed.

Lemma has_comma_up_to_comma (s : string) :
  has_comma (up_to_comma s) = false.
Proof.
  induction s as [|c s IH]; simpl; [reflexivity|].
  destruct (Ascii.eqb c ",") eqn:E; simpl; [reflexivity|].
  now rewrite E.
Qed.

Lemma up_to_comma_prefix (s : string) :
  exists rest, s = up_to_comma s +:+ rest
               /\ (rest = "" \/ exists tail, rest = String "," tail).
Proof.
  induction s as [|c s (rest & E & Hrest)]; simpl.
  - exists "". auto.
  - destruct (Ascii.eqb_spec c ",") as [->|Hc].
    + exists (String "," s). eauto.
    + exists rest. split; [|exact Hrest].
      change (String c s = String c (up_to_comma s +:+ rest)).
      now f_equal.
Qed.

(** X13: the text [generate_image] returns, and so the text the uploader
    receives, holds no comma, and the data URL it was cut from is the
    prefix, that text, and then nothing or a comma and more. *)
Theorem returned_text_has_no_comma
    (w : World) (prompt : pyval) (image_data : string) :
  outcome (generate_image w prompt) = Return image_data ->
  has_comma image_data = false
  /\ exists api_key response items rest,
       http_post w (generation_request api_key prompt) = Return response
       /\ json response = Return (PyDict items)
       /\ dict_get items "result"
          = PyStr (data_url_prefix +:+ image_data +:+ rest)
       /\ (rest = "" \/ exists tail, rest = String "," tail).
Proof.
  intros Hout.
  pose proof (generate_image_run w prompt) as G.
  destruct (generate_image w prompt) as [tr r]. simpl in Hout. subst r.
  destruct (generation_run_returns _ _ _ _ G)
    as (k & r & i & u & Hk & Hp & Hok & Hj & Hr & Hpre & -> & _).
  split; [apply has_comma_up_to_comma|].
  apply prefix_app in Hpre as [payload ->].
  change (after_first_comma (data_url_prefix +:+ payload)) with payload.
  destruct (up_to_comma_prefix payload) as (rest & E & Hrest).
  exists k, r, i, rest. repeat split; try assumption.
  rewrite Hr. f_equal. unfold data_url_prefix. simpl. now rewrite <- E.
Qed.

(** X14: the status of the reply.  When the HTTP client raises
    [HTTPStatusError] only through [raise_for_status], the reply's status
    is 200, 400, 500 or the status of a non-2xx answer of the generation
    API; a status in 200..299 means the request succeeded with 200. *)
Theorem reply_status_meaning
    (w : World) (payload : list (string * pyval)) :
  (forall req status, http_post w req <> Raise (HTTPStatusError status)) ->
  (forall req response status,
     http_post w req = Return response ->
     json response <> Raise (HTTPStatusError status)) ->
  (reply_status (post_generate w payload) = 200
   \/ reply_status (post_generate w payload) = 400
   \/ reply_status (post_generate w payload) = 500
   \/ exists api_key response,
        http_post w (generation_request api_key (dict_get payload "prompt"))
        = Return response
        /\ ~ (200 <= status_code response <= 299)
        /\ reply_status (post_generate w payload) = status_code response)
  /\ (200 <= reply_status (post_generate w payload) <= 299 ->
      exists image_url,
        post_generate w payload
        = {| reply_status := 200;
             reply_body := PyDict [("image_url", PyStr image_url)] |}).
Proof.
  intros Hpost Hjson.
  assert (Hcause : forall cause,
    (forall status, cause <> HTTPStatusError status) ->
    exists detail, generation_failure w cause = HTTPException 500 detail).
  { intros cause Hnot. destruct cause; simpl; eauto.
    exfalso. eapply Hnot. reflexivity. }
  unfold post_generate.
  pose proof (generate_endpoint_run w payload) as R.
  destruct (generate_endpoint w payload) as [tr r].
  inversion R as [Hf|tr0 e0 Ht G|tr1 d tr2 e0 Ht G U|tr1 d tr2 url Ht G U];
    subst; simpl.
  - split; [auto|]. lia.
  - assert (Hst : (exists detail, e0 = HTTPException 500 detail)
                  \/ exists api_key response detail,
                       http_post w (generation_request api_key
                                      (dict_get payload "prompt"))
                       = Return response
                       /\ is_success response = false
                       /\ e0 = HTTPException (status_code response) detail).
    { clear R. remember (tr, Raise e0) as m eqn:Em. revert Em.
      destruct G as [Hk|k e Hk Hp|k r Hk Hp Hok|k r e Hk Hp Hok Hj
                    |k r body Hk Hp Hok Hj Hnot|k r items Hk Hp Hok Hj Hbad
                    |k r items Hk Hp Hok Hj Hres Hnot
                    |k r items u Hk Hp Hok Hj Hr Hpre];
        intros Em; try discriminate; injection Em as <- <-.
      - left. eauto.
      - left. apply Hcause. intros s ->. exact (Hpost _ _ Hp).
      - right. exists k, r. eexists. repeat split; eauto.
      - left. apply Hcause. intros s ->. exact (Hjson _ _ _ Hp Hj).
      - left. eauto.
      - left. eauto.
      - left. eauto. }
    destruct Hst as [[detail ->]|(k & r & detail & Hp & Hok & ->)]; simpl.
    + split; [auto|]. lia.
    + assert (Hout : ~ (200 <= status_code r <= 299)).
      { intros Hin. apply is_success_range in Hin. congruence. }
      split; [|intros Hin; contradiction].
      right. right. right. exists k, r. auto.
  - destruct (upload_run_raises _ _ _ _ U) as [cause ->]. simpl.
    split; [auto|]. lia.
  - split; [auto|]. intros _. eauto.
Qed.

(* ===================================================================== *)
(** ** Startup *)
(* ===================================================================== *)

(** X15: the startup hook returns exactly when the three storage
    credentials are in the environment and both constructors return; the
    storage client is then built from those three values and signature
    version "s3v4".  The hook makes no call of the request path.  When it
    fails, it fails with the [KeyError] of a credential that is missing,
    or, the three being present, with what [boto3.client] raised on them,
    or with what [httpx.AsyncClient] raised after it. *)
Theorem lifespan_starts_iff
    (lib : Constructors) (env : gmap string string) (clients : Clients) :
  (outcome (lifespan lib env) = Return clients <->
   env !! "R2_ENDPOINT_URL" = Some (endpoint_url clients)
   /\ env !! "R2_ACCESS_KEY_ID" = Some (aws_access_key_id clients)
   /\ env !! "R2_SECRET_ACCESS_KEY" = Some (aws_secret_access_key clients)
   /\ signature_version clients = "s3v4"
   /\ boto3_client lib clients = Return tt
   /\ async_client lib = Return tt)
  /\ trace (lifespan lib env) = []
  /\ (forall e, outcome (lifespan lib env) = Raise e ->
      (exists name, e = KeyError name
                    /\ In name startup_variables
                    /\ env !! name = None)
      \/ (exists endpoint access_key secret_key,
            env !! "R2_ENDPOINT_URL" = Some endpoint
            /\ env !! "R2_ACCESS_KEY_ID" = Some access_key
            /\ env !! "R2_SECRET_ACCESS_KEY" = Some secret_key
            /\ let built :=
                 {| endpoint_url := endpoint;
                    aws_access_key_id := access_key;
                    aws_secret_access_key := secret_key;
                    signature_version := "s3v4" |} in
               boto3_client lib built = Raise e
               \/ (boto3_client lib built = Return tt
                   /\ async_client lib = Raise e))).
Proof.
  unfold lifespan, environ_getitem.
  destruct (env !! "R2_ENDPOINT_URL") as [endpoint|] eqn:H1; simpl.
  2:{ split; [split; [discriminate|intros [[=] _]]|].
      split; [reflexivity|]. intros e [= <-]. left.
      exists "R2_ENDPOINT_URL". simpl. auto. }
  destruct (env !! "R2_ACCESS_KEY_ID") as [access|] eqn:H2; simpl.
  2:{ split; [split; [discriminate|intros (_ & [=] & _)]|].
      split; [reflexivity|]. intros e [= <-]. left.
      exists "R2_ACCESS_KEY_ID". simpl. auto. }
  destruct (env !! "R2_SECRET_ACCESS_KEY") as [secret|] eqn:H3; simpl.
  2:{ split; [split; [discriminate|intros (_ & _ & [=] & _)]|].
      split; [reflexivity|]. intros e [= <-]. left.
      exists "R2_SECRET_ACCESS_KEY". simpl. auto 6. }
  set (built := {| endpoint_url := endpoint;
                   aws_access_key_id := access;
                   aws_secret_access_key := secret;
                   signature_version := "s3v4" |}).
  assert (Hbuilt : forall c : Clients,
    Some endpoint = Some (endpoint_url c)
    /\ Some access = Some (aws_access_key_id c)
    /\ Some secret = Some (aws_secret_access_key c)
    /\ signature_version c = "s3v4" -> c = built).
  { intros [e a k v]. simpl. intros ([= ->] & [= ->] & [= ->] & ->).
    reflexivity. }
  destruct (boto3_client lib built) as [[]|e1] eqn:Hs3; simpl.
  2:{ split; [split; [discriminate|]|].
      - intros (E1 & E2 & E3 & E4 & Hb & _).
        rewrite (Hbuilt clients) in Hb by auto. congruence.
      - split; [reflexivity|]. intros e [= <-]. right.
        exists endpoint, access, secret. fold built. auto. }
  destruct (async_client lib) as [[]|e2] eqn:Hhttp; simpl.
  2:{ split; [split; [discriminate|]|].
      - intros (_ & _ & _ & _ & _ & [=]).
      - split; [reflexivity|]. intros e [= <-]. right.
        exists endpoint, access, secret. fold built. auto 6. }
  split; [|split; [reflexivity|discriminate]].
  split.
  - intros [= <-]. simpl. auto 7.
  - intros (E1 & E2 & E3 & E4 & _).
    now rewrite (Hbuilt clients) by auto.
Qed.

(* ===================================================================== *)
(** ** The further properties on concrete requests *)
(* ===================================================================== *)

(** A generation API that cannot be reached. *)
Lemma unreachable_api_is_500 :
  http_post Scenarios.unreachable
    (generation_request "sk-test" (PyStr "a cat")) = Examples.timed_out
  /\ generate_endpoint Scenarios.unreachable Examples.cat
     = ([CallGenerateImage (PyStr "a cat");
         HttpPost (generation_request "sk-test" (PyStr "a cat"))],
        Raise (HTTPException 500
          "Image generation error: The read operation timed out")).
Proof.
  split; [reflexivity|].
  apply (transport_failure_is_500 Scenarios.unreachable Examples.cat
           "sk-test"
           (LibraryError "httpx.ReadTimeout" "The read operation timed out")).
  - reflexivity.
  - reflexivity.
  - reflexivity.
  - intros status. discriminate.
  - intros msg. discriminate.
Defined.

(** An answer that is not JSON. *)
Lemma not_json_is_500 :
  json Scenarios.not_json_response
  = Raise (JSONDecodeError "Expecting value: line 1 column 1")
  /\ outcome (generate_endpoint Scenarios.not_json Examples.cat)
     = Raise (HTTPException 500 "Invalid API response format").
Proof.
  split; [reflexivity|].
  rewrite (unparsable_body_is_500 Scenarios.not_json Examples.cat
             "sk-test" Scenarios.not_json_response
             "Expecting value: line 1 column 1").
  - reflexivity.
  - reflexivity.
  - reflexivity.
  - reflexivity.
  - simpl. lia.
  - reflexivity.
Defined.

(** The request of the happy path carries the key as a bearer token. *)
Lemma happy_request_headers :
  In (HttpPost (generation_request "sk-test" (PyStr "a cat")))
     (trace (generate_endpoint Examples.happy Examples.cat))
  /\ exists api_key,
       environ Examples.happy !! "FLUX_API_KEY" = Some api_key
       /\ headers (generation_request "sk-test" (PyStr "a cat"))
          = [("accept", "application/json");
             ("authorization", "Bearer " +:+ api_key)].
Proof.
  assert (Hin : In (HttpPost (generation_request "sk-test" (PyStr "a cat")))
                   (trace (generate_endpoint Examples.happy Examples.cat))).
  { right. left. reflexivity. }
  split; [exact Hin|].
  destruct (outbound_request_fixed Examples.happy Examples.cat _ Hin)
    as (api_key & Hkey & _ & _ & Hheaders & _).
  exists api_key. split; assumption.
Defined.

(** The object of the happy path is the two bytes "hi". *)
Lemma happy_object_is_decoded :
  exists image_data,
    outcome (generate_image Examples.happy (PyStr "a cat"))
    = Return image_data
    /\ b64decode Examples.happy image_data = Return [x68; x69].
Proof.
  destruct (stored_object_is_decoded_image Examples.happy Examples.cat
              {| Bucket := "images";
                 Key := "generated_image_1700000000.png";
                 Body := [x68; x69];
                 ContentType := "image/png" |})
    as (image_data & Hgen & Hdec & _).
  - right. right. right. left. reflexivity.
  - exists image_data. split; assumption.
Defined.

(** The happy path, from its hypotheses. *)
Lemma happy_request_succeeds :
  post_generate Examples.happy Examples.cat
  = {| reply_status := 200;
       reply_body :=
         PyDict
           [("image_url",
             PyStr
               "https://cdn.example.org/generated_image_1700000000.png")] |}.
Proof.
  apply (request_succeeds Examples.happy Examples.cat "sk-test"
           {| status_code := 200;
              json := Return (PyDict
                [("result", PyStr "data:image/png;base64,aGk=")]) |}
           [("result", PyStr "data:image/png;base64,aGk=")]
           "data:image/png;base64,aGk=" "images" "cdn.example.org"
           [x68; x69]).
  - reflexivity.
  - reflexivity.
  - reflexivity.
  - simpl. lia.
  - reflexivity.
  - reflexivity.
  - reflexivity.
  - reflexivity.
  - reflexivity.
  - reflexivity.
  - reflexivity.
Defined.

(** The URL of the happy path names the key that was stored, and the
    store accepted the object. *)
Lemma happy_url_names_stored_key :
  exists args,
    In (PutObject args)
       (trace (generate_endpoint Examples.happy Examples.cat))
    /\ Key args = "generated_image_1700000000.png"
    /\ s3_put_object Examples.happy args = Return tt.
Proof.
  destruct (success_names_stored_object Examples.happy Examples.cat
              (PyDict
                 [("image_url",
                   PyStr
                     "https://cdn.example.org/generated_image_1700000000.png")]))
    as (domain & args & _ & _ & Hin & Hkey & Hput & _).
  - reflexivity.
  - exists args. split; [exact Hin|]. split; [exact Hkey|exact Hput].
Defined.

(** A throttled request fails in the second of the five forms. *)
Lemma throttled_failure_form :
  outcome (generate_endpoint Examples.throttled Examples.cat)
  = Raise (HTTPException 429 "Image generation failed: status 429")
  /\ forall status text,
       HTTPException 429 "Image generation failed: status 429"
       <> HTTPException status ("Internal server error: " +:+ text).
Proof.
  assert (Hout : outcome (generate_endpoint Examples.throttled Examples.cat)
                 = Raise (HTTPException 429
                            "Image generation failed: status 429")).
  { reflexivity. }
  split; [exact Hout|].
  exact (proj2 (failures_are_wrapped Examples.throttled Examples.cat _ Hout)).
Defined.

(** A list where an object is expected; a number where the data URL is
    expected. *)
Lemma wrong_shapes_reported :
  outcome (generate_endpoint Scenarios.list_body Examples.cat)
  = Raise (HTTPException 500
      "Image generation error: 'list' object has no attribute 'get'")
  /\ outcome (generate_endpoint Scenarios.number_result Examples.cat)
     = Raise (HTTPException 500
         "Image generation error: 'int' object has no attribute 'startswith'").
Proof.
  split.
  - destruct (wrong_shape_is_attribute_error Scenarios.list_body
                Examples.cat "sk-test" Scenarios.list_response
                (PyList [PyStr "x"])) as [Hget _].
    + reflexivity.
    + reflexivity.
    + reflexivity.
    + simpl. lia.
    + reflexivity.
    + apply Hget. intros items. discriminate.
  - destruct (wrong_shape_is_attribute_error Scenarios.number_result
                Examples.cat "sk-test" Scenarios.number_response
                (PyDict [("result", PyInt 5)])) as [_ Hstarts].
    + reflexivity.
    + reflexivity.
    + reflexivity.
    + simpl. lia.
    + reflexivity.
    + apply (Hstarts [("result", PyInt 5)] eq_refl eq_refl).
      intros s. discriminate.
Defined.

(** The text cut from "data:image/png;base64,ab,cd" is "ab", followed in
    the data URL by ",cd". *)
Lemma cut_text_has_no_comma :
  outcome (generate_image Examples.two_commas_world (PyStr "a cat"))
  = Return "ab"
  /\ has_comma "ab" = false.
Proof.
  assert (Hout : outcome (generate_image Examples.two_commas_world
                            (PyStr "a cat")) = Return "ab").
  { reflexivity. }
  split; [exact Hout|].
  exact (proj1 (returned_text_has_no_comma Examples.two_commas_world
                  (PyStr "a cat") "ab" Hout)).
Defined.

(** The throttled world raises no [HTTPStatusError] of its own, and its
    reply carries the upstream status. *)
Lemma throttled_status_is_upstream :
  (forall req status,
     http_post Examples.throttled req <> Raise (HTTPStatusError status))
  /\ (reply_status (post_generate Examples.throttled Examples.cat) = 200
      \/ reply_status (post_generate Examples.throttled Examples.cat) = 400
      \/ reply_status (post_generate Examples.throttled Examples.cat) = 500
      \/ exists api_key response,
           http_post Examples.throttled
             (generation_request api_key
                (dict_get Examples.cat "prompt")) = Return response
           /\ ~ (200 <= status_code response <= 299)
           /\ reply_status (post_generate Examples.throttled Examples.cat)
              = status_code response).
Proof.
  assert (Hpost : forall req status,
            http_post Examples.throttled req
            <> Raise (HTTPStatusError status)).
  { intros req status. discriminate. }
  split; [exact Hpost|].
  apply (reply_status_meaning Examples.throttled Examples.cat Hpost).
  intros req response status [= <-]. discriminate.
Defined.

(** An endpoint without its scheme: the three variables are set and the
    startup hook still fails, with what the storage constructor raised. *)
Lemma bare_endpoint_fails_startup :
  outcome (lifespan Examples.libraries Scenarios.bare_endpoint)
  = Raise (LibraryError "ValueError" "Invalid endpoint: account.r2.example")
  /\ boto3_client Examples.libraries
       {| endpoint_url := "account.r2.example";
          aws_access_key_id := "key-id";
          aws_secret_access_key := "secret";
          signature_version := "s3v4" |}
     = Raise (LibraryError "ValueError"
                "Invalid endpoint: account.r2.example").
Proof.
  assert (Hout : outcome (lifespan Examples.libraries
                            Scenarios.bare_endpoint)
                 = Raise (LibraryError "ValueError"
                            "Invalid endpoint: account.r2.example")).
  { reflexivity. }
  split; [exact Hout|].
  destruct (proj2 (proj2 (lifespan_starts_iff Examples.libraries
                            Scenarios.bare_endpoint
                            {| endpoint_url := "";
                               aws_access_key_id := "";
                               aws_secret_access_key := "";
                               signature_version := "" |})) _ Hout)
    as [(name & [=] & _)|(e & a & k & He & Ha & Hk & Hb)].
  vm_compute in He, Ha, Hk.
  injection He as <-. injection Ha as <-. injection Hk as <-.
  reflexivity.
Defined.
